(** * geekmagic-ultra-scripts: departures board, task board and uploader

    A shallow embedding of [cm_departures.py], [todoist_today.py] and
    [upload.py], followed by the properties of the normalisers, the
    renderers and the uploader.

    Conventions of the embedding.
    - A Python [str] is a [string]; one character of the model is one code
      point, the alphabet being the first 256 code points.  Captions that
      the scripts draw verbatim keep the bytes of the source file.
    - A Python [int] is a [Z]; the seconds of a [timedelta] are an exact
      rational [Q] (the rounding of [total_seconds()] to a float is not
      part of the model).
    - A JSON object read with [d.get(k, default)] or tested with [k in d]
      has an optional field [k]; a key read with [d[k]] is a plain field.
    - A call that may raise returns a [result]. *)

From Stdlib Require Import ZArith QArith String Ascii List Lia DecimalString.
From stdpp Require Import base list strings gmap sorting.

Local Open Scope string_scope.
Local Open Scope Z_scope.

(** ** Python built-ins used by the scripts *)

Module Py.

Inductive exn :=
| ValueError (msg : string)
| TypeError (msg : string)
| OSError (msg : string).

Inductive result (A : Type) :=
| Ok (a : A)
| Raise (e : exn).
Arguments Ok {A} a.
Arguments Raise {A} e.

(** sequencing: the first exception raised ends the computation *)
#[global] Instance result_bind : MBind result := λ A B k m,
  match m with
  | Ok a => k a
  | Raise e => Raise e
  end.
#[global] Instance result_ret : MRet result := λ A a, Ok a.

(** [str(n)] for an [int]. *)
Definition str (n : Z) : string := NilZero.string_of_int (Z.to_int n).

(** [len(s)] *)
Definition len (s : string) : Z := Z.of_nat (String.length s).

(** [s[:n]] for a non-negative [n]. *)
Definition prefix (n : Z) (s : string) : string :=
  substring 0 (Z.to_nat n) s.

(** [c.lower()] on one code point below 256: the letters A-Z and the
    Latin-1 capitals U+00C0..U+00DE (U+00D7 apart) move up by 32. *)
Definition lower_char (c : ascii) : ascii :=
  let n := N_of_ascii c in
  if ((65 <=? n) && (n <=? 90)
      || (192 <=? n) && (n <=? 222) && negb (n =? 215))%N
  then ascii_of_N (n + 32)
  else c.

(** [s.lower()] *)
Fixpoint lower (s : string) : string :=
  match s with
  | EmptyString => EmptyString
  | String c s' => String (lower_char c) (lower s')
  end.

(** [sep.join(l)] *)
Fixpoint join (sep : string) (l : list string) : string :=
  match l with
  | [] => ""
  | [x] => x
  | x :: l' => x ++ sep ++ join sep l'
  end.

(** [list.sort(key=...)] is a stable sort that only asks [<] of the
    keys.  The result of a stable sort is determined by the input, so
    the insertion sort below returns what [list.sort] returns: [x],
    which stood before the elements of [l], goes in front of the first
    element whose key is not smaller than its own. *)
Section Sort.
Context {A K : Type} (key : A → K) (lt : K → K → bool).

Fixpoint insert (x : A) (l : list A) : list A :=
  match l with
  | [] => [x]
  | y :: l' =>
      if lt (key y) (key x) then y :: insert x l' else x :: y :: l'
  end.

Fixpoint sort (l : list A) : list A :=
  match l with
  | [] => []
  | x :: l' => insert x (sort l')
  end.
End Sort.

(** [a < b] on numbers. *)
Definition num_lt (a b : Q) : bool :=
  match (a ?= b)%Q with Lt => true | _ => false end.

(** [a < b] on the triples [(int, int, str)] used as task sort keys:
    the first component that differs decides. *)
Definition triple_lt (a b : Z * Z * string) : bool :=
  let '(a1, a2, a3) := a in
  let '(b1, b2, b3) := b in
  if negb (a1 =? b1) then a1 <? b1
  else if negb (a2 =? b2) then a2 <? b2
  else String.ltb a3 b3.

End Py.

(** ** The part of [datetime] the scripts use *)

Module DateTime.
Import Py.

Record datetime := {
  year : Z; month : Z; day : Z;
  hour : Z; minute : Z; second : Z; microsecond : Z;
  tzinfo : option Z   (* utcoffset in seconds; [None] for a naive value *)
}.

Definition is_leap (y : Z) : bool :=
  (y mod 4 =? 0) && (negb (y mod 100 =? 0) || (y mod 400 =? 0)).

Definition days_in_month (y m : Z) : Z :=
  if m =? 2 then (if is_leap y then 29 else 28)
  else if (m =? 4) || (m =? 6) || (m =? 9) || (m =? 11) then 30
  else 31.

Definition days_before_year (y : Z) : Z :=
  let y' := y - 1 in y' * 365 + y' / 4 - y' / 100 + y' / 400.

Definition days_before_month (y m : Z) : Z :=
  nth (Z.to_nat m)
      [0; 0; 31; 59; 90; 120; 151; 181; 212; 243; 273; 304; 334] 0
  + (if (2 <? m) && is_leap y then 1 else 0).

(** [toordinal()] *)
Definition toordinal (d : datetime) : Z :=
  days_before_year (year d) + days_before_month (year d) (month d) + day d.

(** *** [datetime.fromisoformat]

    Texts of the form
    [YYYY-MM-DD[*HH[:MM[:SS[.fff[fff]]]][(+|-)HH:MM]]] are read as every
    Python 3 release reads them, with the range checks of the [datetime]
    constructor.  Any other text is a [ValueError] in the model; Python
    reads some of them, depending on its version. *)

Definition digit (c : ascii) : option Z :=
  let n := N_of_ascii c in
  if ((48 <=? n) && (n <=? 57))%N then Some (Z.of_N n - 48) else None.

(** the decimal number written by [s], all of whose characters are digits *)
Fixpoint digits_from (acc : Z) (s : string) : option Z :=
  match s with
  | EmptyString => Some acc
  | String c s' =>
      match digit c with
      | Some d => digits_from (acc * 10 + d) s'
      | None => None
      end
  end.

Definition number (n : nat) (s : string) : option Z :=
  if (String.length s =? n)%nat then
    match s with EmptyString => None | _ => digits_from 0 s end
  else None.

(** splits [s] after its first [n] characters; [None] when too short *)
Definition split_at (n : nat) (s : string) : option (string * string) :=
  if (n <=? String.length s)%nat
  then Some (substring 0 n s, substring n (String.length s - n) s)
  else None.

(** reads [n] digits and returns the rest *)
Definition field (n : nat) (s : string) : option (Z * string) :=
  match split_at n s with
  | Some (a, rest) =>
      match number n a with
      | Some v => Some (v, rest)
      | None => None
      end
  | None => None
  end.

(** reads the character [c] *)
Definition expect (c : ascii) (s : string) : option string :=
  match s with
  | String c' s' => if Ascii.eqb c c' then Some s' else None
  | EmptyString => None
  end.

(** [.fff] or [.ffffff], in microseconds *)
Definition fraction (s : string) : option (Z * string) :=
  match expect "." s with
  | None => Some (0, s)
  | Some s1 =>
      match field 6 s1 with
      | Some (v, rest) => Some (v, rest)
      | None =>
          match field 3 s1 with
          | Some (v, rest) => Some (v * 1000, rest)
          | None => None
          end
      end
  end.

(** [(+|-)HH:MM] up to the end of the text, in seconds *)
Definition offset (s : string) : option (option Z) :=
  match s with
  | EmptyString => Some None
  | String c s1 =>
      let sign := if Ascii.eqb c "+" then Some 1
                  else if Ascii.eqb c "-" then Some (-1) else None in
      match sign, field 2 s1 with
      | Some sg, Some (h, s2) =>
          match expect ":" s2 with
          | Some s3 =>
              match number 2 s3 with
              | Some m =>
                  if (h <=? 23) && (m <=? 59)
                  then Some (Some (sg * (h * 3600 + m * 60)))
                  else None
              | None => None
              end
          | None => None
          end
      | _, _ => None
      end
  end.

(** [HH[:MM[:SS[.fff[fff]]]]] and the offset that follows *)
Definition time_of_day (s : string)
  : option (Z * Z * Z * Z * option Z) :=
  match field 2 s with
  | None => None
  | Some (h, s1) =>
      match expect ":" s1 with
      | None => match offset s1 with
                | Some tz => Some (h, 0, 0, 0, tz)
                | None => None
                end
      | Some s2 =>
          match field 2 s2 with
          | None => None
          | Some (mi, s3) =>
              match expect ":" s3 with
              | None => match offset s3 with
                        | Some tz => Some (h, mi, 0, 0, tz)
                        | None => None
                        end
              | Some s4 =>
                  match field 2 s4 with
                  | None => None
                  | Some (sec, s5) =>
                      match fraction s5 with
                      | None => None
                      | Some (us, s6) =>
                          match offset s6 with
                          | Some tz => Some (h, mi, sec, us, tz)
                          | None => None
                          end
                      end
                  end
              end
          end
      end
  end.

Definition date_of (s : string) : option (Z * Z * Z * string) :=
  match field 4 s with
  | Some (y, s1) =>
      match expect "-" s1 with
      | Some s2 =>
          match field 2 s2 with
          | Some (m, s3) =>
              match expect "-" s3 with
              | Some s4 =>
                  match field 2 s4 with
                  | Some (d, s5) => Some (y, m, d, s5)
                  | None => None
                  end
              | None => None
              end
          | None => None
          end
      | None => None
      end
  | None => None
  end.

Definition in_range (y m d h mi sec : Z) : bool :=
  (1 <=? y) && (y <=? 9999) && (1 <=? m) && (m <=? 12)
  && (1 <=? d) && (d <=? days_in_month y m)
  && (h <=? 23) && (mi <=? 59) && (sec <=? 59).

Definition parse (s : string) : option datetime :=
  match date_of s with
  | None => None
  | Some (y, m, d, rest) =>
      match rest with
      | EmptyString =>
          if in_range y m d 0 0 0
          then Some {| year := y; month := m; day := d; hour := 0;
                       minute := 0; second := 0; microsecond := 0;
                       tzinfo := None |}
          else None
      | String _ tstr =>
          match time_of_day tstr with
          | Some (h, mi, sec, us, tz) =>
              if in_range y m d h mi sec
              then Some {| year := y; month := m; day := d; hour := h;
                           minute := mi; second := sec; microsecond := us;
                           tzinfo := tz |}
              else None
          | None => None
          end
      end
  end.

Definition fromisoformat (s : string) : result datetime :=
  match parse s with
  | Some d => Ok d
  | None => Raise (ValueError ("Invalid isoformat string: " ++ s))
  end.

(** [two-digit %H and %M] *)
Definition pad2 (n : Z) : string :=
  if n <? 10 then "0" ++ str n else str n.

(** [d.strftime('%H:%M')] *)
Definition strftime_HM (d : datetime) : string :=
  pad2 (hour d) ++ ":" ++ pad2 (minute d).

(** microseconds of [a - b] before the offsets are looked at *)
Definition base_delta (a b : datetime) : Z :=
  ((toordinal a - toordinal b) * 86400
   + (second a + minute a * 60 + hour a * 3600)
   - (second b + minute b * 60 + hour b * 3600)) * 1000000
  + (microsecond a - microsecond b).

(** [a - b], as the microseconds of the [timedelta] *)
Definition sub (a b : datetime) : result Z :=
  match tzinfo a, tzinfo b with
  | None, None => Ok (base_delta a b)
  | Some myoff, Some otoff =>
      Ok (base_delta a b + (otoff - myoff) * 1000000)
  | _, _ =>
      Raise (TypeError
               "can't subtract offset-naive and offset-aware datetimes")
  end.

(** [td.total_seconds()] *)
Definition total_seconds (us : Z) : Q := Qmake us 1000000.

(** [datetime.now(timezone.utc)], given the reading [t] of the UTC clock *)
Definition now_utc (t : datetime) : datetime :=
  {| year := year t; month := month t; day := day t; hour := hour t;
     minute := minute t; second := second t;
     microsecond := microsecond t; tzinfo := Some 0 |}.

End DateTime.

(** ** The part of Pillow the scripts use

    An image is the canvas it was created as and the drawing calls made on
    it, in order.  Rasterising and JPEG encoding are Pillow's. *)

Module Pil.

Inductive font :=
| TrueType (path : string) (size : Z)
| DefaultFont.

Inductive op :=
| Rectangle (x0 y0 x1 y1 : Z) (fill : string)
| Text (x y : Z) (text : string) (fill : string) (f : font)
| Line (x0 y0 x1 y1 : Z) (fill : string) (width : Z)
| Ellipse (x0 y0 x1 y1 : Z) (fill outline : option string) (width : Z).

Record image := {
  mode : string;
  size : Z * Z;
  background : string;
  ops : list op
}.

(** what [img.save(path, format, quality=q)] leaves on disk *)
Record saved := {
  saved_path : string;
  saved_format : string;
  saved_quality : Z;
  saved_image : image
}.

(** What the machine provides: whether a font file loads, and the
    bounding box [draw.textbbox((x, y), text, font=f)] measures. *)
Record installation := {
  font_file : string → bool;
  textbbox : Z → Z → string → font → Z * Z * Z * Z
}.

Definition bbox_left (b : Z * Z * Z * Z) : Z := b.1.1.1.
Definition bbox_right (b : Z * Z * Z * Z) : Z := b.1.2.

Definition texts (im : image) : list string :=
  omap (λ o, match o with Text _ _ t _ _ => Some t | _ => None end) (ops im).

End Pil.

(** ** cm_departures.py *)

Module Departures.
Import Py DateTime Pil.

Definition IMAGE_WIDTH : Z := 240.
Definition IMAGE_HEIGHT : Z := 240.
Definition BG_COLOR := "#000000".
Definition HEADER_COLOR := "#1a1a1a".
Definition TEXT_COLOR := "#FFFFFF".
Definition ACCENT_COLOR := "#FFA500".
Definition GRID_COLOR := "#2a2a2a".
Definition MAX_BUSES : Z := 4.

(** *** The payload of the departures API *)

Record Route := {
  id : string;
  name : option string;
  route_color : option string;
  route_text_color : option string
}.

Record Service := {
  route_id : string;
  service_headsign : option string;
  live_departures_seconds : option (list Z);
  next_departures : option (list string)
}.

Record Stop := {
  services : option (list Service);
  routes : option (list Route)
}.

Record Payload := { stops : option (list Stop) }.

(** *** The rows [parse_departures] builds ([departure_info]) *)

Record Departure := {
  route_name : string;
  headsign : string;
  color : string;
  text_color : string;
  time_text : string;
  additional_times : option string;   (* the key may be absent *)
  is_live : bool;
  sort_key : Q
}.

(** A row read as the dictionary it is: the value under a key. *)
Inductive value :=
| VStr (s : string)
| VBool (b : bool)
| VNum (q : Q)
| VList (l : list string).

Definition item (d : Departure) (key : string) : option value :=
  if String.eqb key "route_name" then Some (VStr (route_name d))
  else if String.eqb key "headsign" then Some (VStr (headsign d))
  else if String.eqb key "color" then Some (VStr (color d))
  else if String.eqb key "text_color" then Some (VStr (text_color d))
  else if String.eqb key "time_text" then Some (VStr (time_text d))
  else if String.eqb key "additional_times"
       then VStr <$> additional_times d
  else if String.eqb key "is_live" then Some (VBool (is_live d))
  else if String.eqb key "sort_key" then Some (VNum (sort_key d))
  else None.

(** [{r['id']: r for r in rs}]: a later route replaces an earlier one
    of the same id *)
Definition routes_by_id (rs : list Route) : gmap string Route :=
  foldl (λ m r, <[id r := r]> m) ∅ rs.

(** [[fromisoformat(s).strftime('%H:%M') for s in l]] *)
Fixpoint clock_times (l : list string) : result (list string) :=
  match l with
  | [] => Ok []
  | dep_str :: l' =>
      dep_time ← fromisoformat dep_str;
      rest ← clock_times l';
      Ok (strftime_HM dep_time :: rest)
  end.

(** One turn of the loop over the services: the row to append, or
    [None] where the loop says [continue]. *)
Definition departure_info (routes : gmap string Route)
    (current_time : datetime) (service : Service)
  : result (option Departure) :=
  let route := routes !! route_id service in
  let route_name := default "???" (route ≫= name) in
  let headsign := default "" (service_headsign service) in
  let color := default "#888888" (route ≫= route_color) in
  let text_color := default "#FFFFFF" (route ≫= route_text_color) in
  match live_departures_seconds service with
  | Some (seconds :: _) =>
      let minutes := seconds / 60 in
      Ok (Some {| route_name := route_name; headsign := headsign;
                  color := color; text_color := text_color;
                  time_text := str minutes ++ " min";
                  additional_times := None;
                  is_live := true;
                  sort_key := inject_Z seconds |})
  | _ =>
      match next_departures service with
      | Some (first :: more) =>
          next_dep ← fromisoformat first;
          let time_str := strftime_HM next_dep in
          additional ← clock_times (take 2 more);
          delta ← sub next_dep current_time;
          Ok (Some {| route_name := route_name; headsign := headsign;
                      color := color; text_color := text_color;
                      time_text := time_str;
                      additional_times :=
                        match additional with
                        | [] => None
                        | _ => Some (join ", " additional)
                        end;
                      is_live := false;
                      sort_key := total_seconds delta |})
      | _ => Ok None
      end
  end.

(** the loop [for service in services], appending to [departures] *)
Fixpoint collect (routes : gmap string Route) (current_time : datetime)
    (l : list Service) : result (list Departure) :=
  match l with
  | [] => Ok []
  | service :: l' =>
      row ← departure_info routes current_time service;
      rest ← collect routes current_time l';
      Ok (match row with Some d => d :: rest | None => rest end)
  end.

(** [clock] is the reading of the UTC clock when the function runs. *)
Definition parse_departures (clock : datetime) (data : option Payload)
  : result (list Departure) :=
  match data with
  | Some {| stops := Some (stop :: _) |} =>
      let services := default [] (services stop) in
      let routes := routes_by_id (default [] (routes stop)) in
      let current_time := now_utc clock in
      departures ← collect routes current_time services;
      Ok (take (Z.to_nat MAX_BUSES) (sort sort_key num_lt departures))
  | _ => Ok []
  end.

(** *** The renderer *)

Section Render.
Context (inst : installation).

Definition helvetica := "/System/Library/Fonts/Helvetica.ttc".

(** the [try] block that loads the fonts: sizes 16, 30, 11, 24, 9, 11 *)
Definition load (size : Z) : font :=
  if font_file inst helvetica then TrueType helvetica size
  else DefaultFont.

Definition header_font := load 16.
Definition route_font := load 30.
Definition dest_font := load 11.
Definition time_font := load 24.
Definition small_font := load 9.
Definition next_time_font := load 11.

Definition text_width (t : string) (f : font) : Z :=
  let bbox := textbbox inst 0 0 t f in
  bbox_right bbox - bbox_left bbox.

Definition row_height : Z := 47.

(** the destination as drawn *)
Definition shown_headsign (headsign : string) : string :=
  let max_chars := 11 in
  if max_chars <? len headsign
  then prefix (max_chars - 1) headsign ++ "."
  else headsign.

(** the body of the loop over the rows, for row [i] at [y_offset] *)
Definition draw_departure (i y_offset : Z) (dep : Departure) : list op :=
  let route_x := 8 in
  let route_y := y_offset + 8 in
  let bar_width := 4 in
  let bar_height := 30 in
  let dest_x := 80 in
  let dest_y := route_y + 1 in
  let time_color := if is_live dep then ACCENT_COLOR else TEXT_COLOR in
  let time_width := text_width (time_text dep) time_font in
  let time_x := IMAGE_WIDTH - time_width - 6 in
  let time_y := route_y + 1 in
  (if i mod 2 =? 1
   then [Rectangle 0 (y_offset - 2) IMAGE_WIDTH
                   (y_offset + row_height - 2) "#0a0a0a"]
   else [])
  ++ [Rectangle route_x (route_y - 2) (route_x + bar_width)
                (route_y + bar_height) (color dep);
      Text (route_x + bar_width + 6) route_y (route_name dep)
           TEXT_COLOR route_font;
      Text dest_x dest_y (shown_headsign (headsign dep))
           "#CCCCCC" dest_font]
  ++ match additional_times dep with
     | Some add_text =>
         [Text dest_x (dest_y + 15) add_text "#999999" next_time_font]
     | None => []
     end
  ++ [Text time_x time_y (time_text dep) time_color time_font]
  ++ (if is_live dep
      then let dot_x := time_x - 10 in
           let dot_y := time_y + 10 in
           [Ellipse dot_x dot_y (dot_x + 6) (dot_y + 6)
                    (Some ACCENT_COLOR) None 1]
      else [])
  ++ (if i <? MAX_BUSES - 1
      then let line_y := y_offset + row_height - 2 in
           [Line 8 line_y (IMAGE_WIDTH - 8) line_y GRID_COLOR 1]
      else []).

(** [for i, dep in enumerate(departures)], left at [i >= MAX_BUSES] *)
Fixpoint draw_departures (i y_offset : Z) (l : list Departure)
  : list op :=
  match l with
  | [] => []
  | dep :: l' =>
      if MAX_BUSES <=? i then []
      else draw_departure i y_offset dep
           ++ draw_departures (i + 1) (y_offset + row_height) l'
  end.

(** everything drawn before the rows; [local] is the reading of the
    local clock, [datetime.now()] *)
Definition draw_header (local : datetime) : list op :=
  let current_time := strftime_HM local in
  let time_width := text_width current_time header_font in
  let col_y := 32 in
  [Rectangle 0 0 IMAGE_WIDTH 28 HEADER_COLOR;
   Text 8 6 "DEPARTURES" TEXT_COLOR header_font;
   Text (IMAGE_WIDTH - time_width - 8) 6 current_time
        "#888888" header_font;
   Line 0 28 IMAGE_WIDTH 28 GRID_COLOR 2;
   Text 8 col_y "LINE" "#888888" small_font;
   Text 65 col_y "DESTINATION" "#888888" small_font;
   Text 185 col_y "TIME" "#888888" small_font;
   Line 0 45 IMAGE_WIDTH 45 GRID_COLOR 1].

Definition create_display_image (local : datetime)
    (departures : list Departure) (output_path : string) : saved :=
  {| saved_path := output_path;
     saved_format := "JPEG";
     saved_quality := 95;
     saved_image :=
       {| mode := "RGB";
          size := (IMAGE_WIDTH, IMAGE_HEIGHT);
          background := BG_COLOR;
          ops := draw_header local
                 ++ draw_departures 0 50 departures |} |}.
End Render.

End Departures.

(** ** todoist_today.py *)

Module Todoist.
Import Py Pil.

Definition IMAGE_WIDTH : Z := 240.
Definition IMAGE_HEIGHT : Z := 240.
Definition BG_COLOR := "#1a1a1a".
Definition TEXT_COLOR := "#ffffff".
Definition MAX_TASKS : Z := 6.

Definition PRIORITY_COLORS : gmap Z string :=
  <[4 := "#d1453b"]> (<[3 := "#eb8909"]> (<[2 := "#4073ff"]>
    (<[1 := "#808080"]> ∅))).

Definition ACCENT_COLOR := "#de4c4a".
Definition COMPLETED_COLOR := "#6b6b6b".
Definition BORDER_COLOR := "#2a2a2a".

(** *** What [fetch_today_tasks] hands over *)

Record Due := { due_string : option string }.   (* the key 'string' *)

Record Task := {
  task_content : option string;
  task_priority : option Z;
  task_project_id : option string;
  task_due : option Due;            (* [None]: key absent, or null *)
  task_labels : option (list string)
}.

(** an entry of the completed list: a JSON object, or something else *)
Inductive Item :=
| Dict (item_content : option string) (item_project_id : option string)
| NotDict.

Record TasksData := {
  active : option (list Task);
  completed_items : option (list Item)
}.

(** *** The rows [parse_tasks] builds ([task_info]) *)

Record Row := {
  content : string;
  priority : Z;
  project_id : string;
  due : option Due;
  labels : list string;
  completed : bool;
  due_text : string;
  sort_key : Z * Z * string
}.

Definition active_row (task : Task) : Row :=
  let content := default "Untitled Task" (task_content task) in
  let priority := default 1 (task_priority task) in
  let due_text :=
    match task_due task with
    | Some d =>
        let due_string := default "" (due_string d) in
        if String.eqb due_string "" then "Today" else due_string
    | None => "Today"
    end in
  {| content := content;
     priority := priority;
     project_id := default "" (task_project_id task);
     due := task_due task;
     labels := default [] (task_labels task);
     completed := false;
     due_text := due_text;
     sort_key := (0, 5 - priority, lower content) |}.

Definition completed_row (item : Item) : option Row :=
  match item with
  | Dict item_content item_project_id =>
      Some {| content := default "Untitled Task" item_content;
              priority := 1;
              project_id := default "" item_project_id;
              due := None;
              labels := [];
              completed := true;
              due_text := "Completed";
              sort_key := (1, 0, lower (default "" item_content)) |}
  | NotDict => None
  end.

Definition parse_tasks (tasks_data : option TasksData) : list Row :=
  match tasks_data with
  | None => []
  | Some d =>
      let active_tasks := default [] (active d) in
      let completed_tasks := default [] (completed_items d) in
      let parsed_tasks :=
        ((active_row <$> active_tasks)
         ++ omap completed_row completed_tasks)%list in
      take (Z.to_nat MAX_TASKS) (sort sort_key triple_lt parsed_tasks)
  end.

(** *** The renderer *)

Section Render.
Context (inst : installation).

Definition helvetica := "/System/Library/Fonts/Helvetica.ttc".

(** the [try] block that loads the fonts: sizes 16, 13, 10, 11 *)
Definition load (size : Z) : font :=
  if font_file inst helvetica then TrueType helvetica size
  else DefaultFont.

Definition title_font := load 16.
Definition task_font := load 13.
Definition label_font := load 10.
Definition time_font := load 11.

Definition row_height : Z := 36.

(** the task text as drawn *)
Definition shown_content (task_text : string) : string :=
  let max_chars := 26 in
  if max_chars <? len task_text
  then prefix (max_chars - 3) task_text ++ "..."
  else task_text.

Definition checkbox (checkbox_y : Z) (task : Row) : list op :=
  let checkbox_x := 12 in
  let checkbox_size := 16 in
  if completed task then
    [Ellipse checkbox_x checkbox_y (checkbox_x + checkbox_size)
             (checkbox_y + checkbox_size)
             (Some COMPLETED_COLOR) (Some COMPLETED_COLOR) 1;
     Line (checkbox_x + 4) (checkbox_y + 8) (checkbox_x + 7)
          (checkbox_y + 11) "#ffffff" 2;
     Line (checkbox_x + 7) (checkbox_y + 11) (checkbox_x + 12)
          (checkbox_y + 5) "#ffffff" 2]
  else
    let priority_color :=
      default "#808080" (PRIORITY_COLORS !! priority task) in
    [Ellipse checkbox_x checkbox_y (checkbox_x + checkbox_size)
             (checkbox_y + checkbox_size)
             None (Some priority_color) 2].

(** the body of the loop over the rows; [n] is [len(tasks)] *)
Definition draw_task (n i y_offset : Z) (task : Row) : list op :=
  let is_completed := completed task in
  let checkbox_y := y_offset + 2 in
  let content_x := 12 + 16 + 10 in
  let content_y := checkbox_y in
  let task_text := shown_content (content task) in
  let text_color := if is_completed then COMPLETED_COLOR
                    else TEXT_COLOR in
  let info_y := content_y + 18 in
  checkbox checkbox_y task
  ++ [Text content_x content_y task_text text_color task_font]
  ++ (if is_completed
      then let bbox := textbbox inst content_x content_y task_text
                                task_font in
           let line_y := content_y + 8 in
           [Line content_x line_y (bbox_right bbox) line_y
                 COMPLETED_COLOR 1]
      else [])
  ++ (if negb is_completed && negb (String.eqb (due_text task) "")
      then [Text content_x info_y (due_text task) "#666666" time_font]
      else [])
  ++ (if i <? n - 1
      then let line_y := y_offset + row_height - 2 in
           [Line 12 line_y 228 line_y BORDER_COLOR 1]
      else []).

(** [for i, task in enumerate(tasks)], left at [i >= MAX_TASKS] *)
Fixpoint draw_tasks (n i y_offset : Z) (l : list Row) : list op :=
  match l with
  | [] => []
  | task :: l' =>
      if MAX_TASKS <=? i then []
      else draw_task n i y_offset task
           ++ draw_tasks n (i + 1) (y_offset + row_height) l'
  end.

Definition count_caption (tasks : list Row) : string :=
  let active_count :=
    Z.of_nat (length (filter (λ t, completed t = false) tasks)) in
  let completed_count :=
    Z.of_nat (length (filter (λ t, completed t = true) tasks)) in
  if 0 <? completed_count
  then str active_count ++ " active · " ++ str completed_count
       ++ " completed"
  else str active_count ++ " tasks".

Definition empty_message := "All done for today! ✨".

Definition create_display_image (tasks : list Row)
    (output_path : string) : saved :=
  let n := Z.of_nat (length tasks) in
  {| saved_path := output_path;
     saved_format := "JPEG";
     saved_quality := 95;
     saved_image :=
       {| mode := "RGB";
          size := (IMAGE_WIDTH, IMAGE_HEIGHT);
          background := BG_COLOR;
          ops :=
            [Text 12 10 "Today" ACCENT_COLOR title_font;
             Text 12 30 (count_caption tasks) "#888888" label_font;
             Line 0 50 IMAGE_WIDTH 50 BORDER_COLOR 1]
            ++ draw_tasks n 0 58 tasks
            ++ (if n =? 0
                then let msg_y := IMAGE_HEIGHT / 2 - 10 in
                     [Text (IMAGE_WIDTH / 2 - 70) msg_y empty_message
                           ACCENT_COLOR task_font]
                else []) |} |}.
End Render.

End Todoist.

(** ** upload.py *)

Module Upload.
Import Py.

Record response := {
  status_code : Z;
  reason : string;
  text : string
}.

(** What the process finds around it: its environment variables, the
    file system, and the device answering a POST (a response, or the
    text of the [RequestException] that [requests.post] raises). *)
Record world := {
  getenv : string → option string;
  exists_ : string → bool;                 (* os.path.exists *)
  open_rb : string → result string;        (* open(path, 'rb').read() *)
  post : string → string → string → response + string
}.

Inductive event :=
| Print (line : string)
| Post (url field filename content_type body : string) (timeout : Z).

Definition IMAGE_FILE := "departures.jpg".

(** [os.path.basename]: what follows the last slash *)
Fixpoint basename_from (acc s : string) : string :=
  match s with
  | EmptyString => acc
  | String c s' =>
      if Ascii.eqb c "/" then basename_from "" s'
      else basename_from (acc ++ String c "") s'
  end.
Definition basename (s : string) : string := basename_from "" s.

(** [response.raise_for_status()]: the message of the [HTTPError] *)
Definition raise_for_status (url : string) (r : response)
  : option string :=
  let st := status_code r in
  if (400 <=? st) && (st <? 500)
  then Some (str st ++ " Client Error: " ++ reason r ++ " for url: " ++ url)
  else if (500 <=? st) && (st <? 600)
  then Some (str st ++ " Server Error: " ++ reason r ++ " for url: " ++ url)
  else None.

Section Run.
Context (w : world).

(** [f"{v}"] for the value of [os.getenv] *)
Definition shown (v : option string) : string := default "None" v.

Definition DEVICE_URL : option string := getenv w "DEVICE_URL".
Definition UPLOAD_DIR : string :=
  default "/image/" (getenv w "UPLOAD_DIR").

(** the events of the call, in order, and how it ends: a returned
    boolean, or an exception nothing catches *)
Definition upload_image (image_path : string)
  : list event * result bool :=
  if negb (exists_ w image_path) then
    ([Print ("Error: Image file '" ++ image_path ++ "' not found")],
     Ok false)
  else
    let url := shown DEVICE_URL ++ "?dir=" ++ UPLOAD_DIR in
    match open_rb w image_path with
    | Raise e => ([], Raise e)
    | Ok f =>
        let name := basename image_path in
        let sent :=
          [Print ("Uploading " ++ image_path ++ " to "
                  ++ shown DEVICE_URL ++ "...");
           Post url "file" name "image/jpeg" f 10] in
        match post w url name f with
        | inr e =>
            ((sent ++ [Print ("Upload failed: " ++ e)])%list, Ok false)
        | inl r =>
            match raise_for_status url r with
            | Some e =>
                ((sent ++ [Print ("Upload failed: " ++ e)])%list,
                 Ok false)
            | None =>
                ((sent
                  ++ [Print ("Upload successful! Status: "
                             ++ str (status_code r))]
                  ++ (if String.eqb (text r) "" then []
                      else [Print ("Response: " ++ text r)]))%list,
                 Ok true)
            end
        end
    end.

(** [main], given [sys.argv]: the events and the exit status of the
    process (an exception nothing catches ends it with status 1) *)
Definition main (argv : list string) : list event * Z :=
  let image_path :=
    match argv with
    | _ :: path :: _ => path
    | _ => IMAGE_FILE
    end in
  match upload_image image_path with
  | (evs, Ok success) => (evs, if success then 0 else 1)
  | (evs, Raise _) => (evs, 1)
  end.
End Run.

Definition is_post (e : event) : bool :=
  match e with Post _ _ _ _ _ _ => true | Print _ => false end.

(** the path [main] uploads *)
Definition argv_path (argv : list string) : string :=
  match argv with
  | _ :: path :: _ => path
  | _ => IMAGE_FILE
  end.

(** the file is there and opens, the POST is answered, and the status
    of the answer is neither 4xx nor 5xx *)
Definition transmitted (w : world) (image_path : string) : Prop :=
  let url := shown (DEVICE_URL w) ++ "?dir=" ++ UPLOAD_DIR w in
  exists_ w image_path = true
  ∧ ∃ body r,
      open_rb w image_path = Ok body
      ∧ post w url (basename image_path) body = inl r
      ∧ raise_for_status url r = None.

End Upload.

(** ** Predicates the statements use *)

Module Valid.
Import Py DateTime Departures.

(** a text [datetime.fromisoformat] reads *)
Definition timestamp (s : string) : bool :=
  match parse s with Some _ => true | None => false end.

(** a text it reads as a time with a UTC offset *)
Definition aware_timestamp (s : string) : bool :=
  match parse s with
  | Some d => match tzinfo d with Some _ => true | None => false end
  | None => false
  end.

(** the service carries departure data: a non-empty list of live
    seconds, or a non-empty list of scheduled times *)
Definition has_departures (s : Service) : bool :=
  match live_departures_seconds s, next_departures s with
  | Some (_ :: _), _ => true
  | _, Some (_ :: _) => true
  | _, _ => false
  end.

(** the timestamps [parse_departures] reads from a scheduled service
    are well formed, the first one with its offset *)
Definition valid_service (s : Service) : bool :=
  match live_departures_seconds s with
  | Some (_ :: _) => true
  | _ =>
      match next_departures s with
      | Some (first :: more) =>
          aware_timestamp first && forallb timestamp (take 2 more)
      | _ => true
      end
  end.

(** a payload with a first stop, all of whose services are valid *)
Definition valid_payload (data : option Payload) : bool :=
  match data with
  | Some {| stops := Some (stop :: _) |} =>
      forallb valid_service (default [] (services stop))
  | _ => false
  end.

(** the services of the first stop, which are all [parse_departures]
    looks at *)
Definition first_stop_services (data : option Payload) : list Service :=
  match data with
  | Some {| stops := Some (stop :: _) |} => default [] (services stop)
  | _ => []
  end.

(** the first stop without the services that carry no departure data *)
Definition without_empty_services (stop : Stop) : Stop :=
  {| services :=
       Some (filter (λ s, has_departures s = true)
                    (default [] (services stop)));
     routes := routes stop |}.

(** the routes of the first stop, by id *)
Definition first_stop_routes (data : option Payload)
  : gmap string Route :=
  match data with
  | Some {| stops := Some (stop :: _) |} =>
      routes_by_id (default [] (routes stop))
  | _ => ∅
  end.

(** what the sort key of the row [r] built from the service [s] is *)
Definition keyed_by (clock : datetime) (s : Service) (r : Departure)
  : Prop :=
  match live_departures_seconds s with
  | Some (seconds :: _) =>
      is_live r = true ∧ sort_key r = inject_Z seconds
  | _ =>
      match next_departures s with
      | Some (first :: _) =>
          is_live r = false
          ∧ ∃ next_dep delta,
              fromisoformat first = Ok next_dep
              ∧ sub next_dep (now_utc clock) = Ok delta
              ∧ sort_key r = total_seconds delta
      | _ => False
      end
  end.

(** The picture of the empty list says that the list is empty: it
    shows something that is not on every picture. *)
Definition empty_indication {R} (render : list R → Pil.image) : Prop :=
  ∃ o, o ∈ Pil.ops (render []) ∧ ∃ rows, o ∉ Pil.ops (render rows).

(** the order the task rows are meant to come in: active rows first,
    by falling priority and then by lowercased content; completed rows
    after them, by the text their key was computed from *)
Definition task_order (a b : Todoist.Row) : Prop :=
  match Todoist.completed a, Todoist.completed b with
  | false, true => True
  | true, false => False
  | false, false =>
      Todoist.priority b < Todoist.priority a
      ∨ (Todoist.priority a = Todoist.priority b
         ∧ String.leb (lower (Todoist.content a))
                      (lower (Todoist.content b)) = true)
  | true, true =>
      String.leb (Todoist.sort_key a).2 (Todoist.sort_key b).2 = true
  end.

(** [a <= b] on the triples used as task sort keys *)
Definition triple_le (a b : Z * Z * string) : Prop :=
  a.1.1 < b.1.1
  ∨ (a.1.1 = b.1.1
     ∧ (a.1.2 < b.1.2
        ∨ (a.1.2 = b.1.2 ∧ String.leb a.2 b.2 = true))).

(** how a task row is keyed *)
Definition task_keyed (r : Todoist.Row) : Prop :=
  if Todoist.completed r
  then (Todoist.sort_key r).1 = (1, 0)
  else Todoist.sort_key r
       = (0, 5 - Todoist.priority r, lower (Todoist.content r)).

(** One run of a renderer: the machine it runs on and the reading of
    the local clock at that moment. *)
Record invocation := {
  machine : Pil.installation;
  wall_clock : datetime
}.

Definition render_departures (v : invocation)
    (rows : list Departure) (path : string) : Pil.saved :=
  Departures.create_display_image (machine v) (wall_clock v) rows path.

Definition render_tasks (v : invocation)
    (rows : list Todoist.Row) (path : string) : Pil.saved :=
  Todoist.create_display_image (machine v) rows path.

End Valid.

(** ** Sample inputs *)

Module Sample.
Import Py DateTime Pil.

(** no Helvetica file; every character six pixels wide *)
Definition monospace : installation :=
  {| font_file := λ _, false;
     textbbox := λ x y t _, (x, y, x + 6 * len t, y + 11) |}.

Definition eight_o_clock : datetime :=
  {| year := 2024; month := 1; day := 1; hour := 8; minute := 0;
     second := 0; microsecond := 0; tzinfo := None |}.

Definition route_175 : Departures.Route :=
  {| Departures.id := "r175"; Departures.name := Some "175";
     Departures.route_color := Some "#ff0000";
     Departures.route_text_color := None |}.

(** scheduled at 08:15 and 08:30, no live data *)
Definition scheduled : Departures.Service :=
  {| Departures.route_id := "r175";
     Departures.service_headsign := Some "Lotnisko Chopina";
     Departures.live_departures_seconds := None;
     Departures.next_departures :=
       Some ["2024-01-01T08:15:00+00:00"; "2024-01-01T08:30:00+00:00"] |}.

(** live in 90 seconds, of an unknown route, without a headsign *)
Definition live : Departures.Service :=
  {| Departures.route_id := "r9";
     Departures.service_headsign := None;
     Departures.live_departures_seconds := Some [90; 400];
     Departures.next_departures := None |}.

(** no departure data at all *)
Definition idle : Departures.Service :=
  {| Departures.route_id := "r9";
     Departures.service_headsign := Some "Depot";
     Departures.live_departures_seconds := Some [];
     Departures.next_departures := Some [] |}.

Definition payload : option Departures.Payload :=
  Some {| Departures.stops :=
            Some [{| Departures.services := Some [scheduled; live; idle];
                     Departures.routes := Some [route_175] |}] |}.

Definition live_row : Departures.Departure :=
  {| Departures.route_name := "???"; Departures.headsign := "";
     Departures.color := "#888888"; Departures.text_color := "#FFFFFF";
     Departures.time_text := "1 min";
     Departures.additional_times := None;
     Departures.is_live := true; Departures.sort_key := 90 |}.

Definition scheduled_row : Departures.Departure :=
  {| Departures.route_name := "175";
     Departures.headsign := "Lotnisko Chopina";
     Departures.color := "#ff0000"; Departures.text_color := "#FFFFFF";
     Departures.time_text := "08:15";
     Departures.additional_times := Some "08:30";
     Departures.is_live := false;
     Departures.sort_key := DateTime.total_seconds 900000000 |}.

(** a payload whose only service is the scheduled one *)
Definition scheduled_payload : option Departures.Payload :=
  Some {| Departures.stops :=
            Some [{| Departures.services := Some [scheduled];
                     Departures.routes := Some [route_175] |}] |}.

(** half a minute after eight *)
Definition eight_and_a_half : datetime :=
  {| year := 2024; month := 1; day := 1; hour := 8; minute := 0;
     second := 30; microsecond := 0; tzinfo := None |}.

(** a machine with no file at all and no device *)
Definition bare : Upload.world :=
  {| Upload.getenv := λ _, None;
     Upload.exists_ := λ _, false;
     Upload.open_rb := λ _, Raise (OSError "No such file or directory");
     Upload.post := λ _ _ _, inr "Connection refused" |}.

(** a machine holding departures.jpg, and a device that answers 200 *)
Definition online : Upload.world :=
  {| Upload.getenv := λ k,
       if String.eqb k "DEVICE_URL"
       then Some "http://192.168.1.50/doUpload" else None;
     Upload.exists_ := λ p, String.eqb p "departures.jpg";
     Upload.open_rb := λ p,
       if String.eqb p "departures.jpg" then Ok "JFIF"
       else Raise (OSError "No such file or directory");
     Upload.post := λ _ _ _,
       inl {| Upload.status_code := 200; Upload.reason := "OK";
              Upload.text := "OK" |} |}.

(** an active task of priority 7 with a text of 30 characters *)
Definition odd_task : Todoist.Row :=
  {| Todoist.content := "Renew the library card in town";
     Todoist.priority := 7; Todoist.project_id := "";
     Todoist.due := None; Todoist.labels := [];
     Todoist.completed := false; Todoist.due_text := "Today";
     Todoist.sort_key := (0, -2, "renew the library card in town") |}.

End Sample.

(** ** The scripts as run: fetching, and the two [main] functions

    A run is the list of what the process does, in order (lines printed,
    GET requests sent, files saved), and how it ends.  The answer to a
    GET is the decoded JSON body, or the text of the
    [RequestException] that [requests.get] or [raise_for_status] raises;
    a body that does not decode to the expected shape is outside the
    model, and so is Pillow refusing a colour it cannot read. *)

Module Script.

Inductive event :=
| Print (line : string)
| Get (url : string) (headers params : list (string * string))
      (timeout : Z)
| Save (file : Pil.saved).

(** the exceptions of the library calls, and the one of [list[i]] *)
Inductive exn :=
| Lib (e : Py.exn)
| IndexError (msg : string).

Inductive outcome :=
| Returned
| Uncaught (e : exn).

Definition saves (evs : list event) : list Pil.saved :=
  omap (λ e, match e with Save f => Some f | _ => None end) evs.

Definition is_get (e : event) : bool :=
  match e with Get _ _ _ _ => true | _ => false end.

Definition gets (evs : list event) : list event :=
  filter (λ e, is_get e = true) evs.

(** [l[i]] for a Python list: a negative index counts from the end *)
Definition index {A} (l : list A) (i : Z) : option A :=
  let n := Z.of_nat (length l) in
  if (0 <=? i) && (i <? n) then l !! Z.to_nat i
  else if (- n <=? i) && (i <? 0) then l !! Z.to_nat (n + i)
  else None.

(** [create_display_image] as [main] sees it: the file, then the line *)
Definition rendered (file : Pil.saved) : list event :=
  [Save file; Print ("Display image saved to: " ++ Pil.saved_path file)].

Definition newline : string := String "010" "".

End Script.

Module DeparturesScript.
Import Py Departures Script.

Definition API_URL := "https://citymapper.com/api/1/departures".
Definition STOP_ID := "WarsawStop_Centrum_01".
Definition REGION_ID := "pl-warsaw".

(** [get url params] answers the GET; the body is [None] when it is
    null or an empty object, which Python takes for false. *)
Record world := {
  get : string → list (string * string) → option Payload + string;
  utc_clock : DateTime.datetime;
  local_clock : DateTime.datetime;
  machine : Pil.installation
}.

Section Run.
Context (w : world).

Definition fetch_departures : list event * option Payload :=
  let params :=
    [("headways", "1"); ("ids", STOP_ID); ("region_id", REGION_ID)] in
  let request := Get API_URL [] params 10 in
  match get w API_URL params with
  | inl data => ([request], data)
  | inr e => ([request; Print ("Error fetching data: " ++ e)], None)
  end.

(** the line printed for a row *)
Definition row_line (dep : Departure) : event :=
  Print ("  " ++ route_name dep ++ ": " ++ headsign dep ++ " - "
         ++ time_text dep).

Definition main : list event * outcome :=
  let '(fetched, data) := fetch_departures in
  let fetching := Print "Fetching bus departures..." :: fetched in
  match data with
  | None =>
      ((fetching ++ [Print "Failed to fetch departure data"])%list,
       Returned)
  | Some _ =>
      let parsing := (fetching ++ [Print "Parsing departures..."])%list in
      match parse_departures (utc_clock w) data with
      | Raise e => (parsing, Uncaught (Lib e))
      | Ok [] => ((parsing ++ [Print "No departures found"])%list, Returned)
      | Ok departures =>
          ((parsing
            ++ [Print ("Found " ++ str (Z.of_nat (length departures))
                       ++ " upcoming buses")]
            ++ (row_line <$> departures)
            ++ [Print (newline ++ "Generating display image...")]
            ++ rendered (create_display_image (machine w) (local_clock w)
                           departures "departures.jpg")
            ++ [Print "Done!"])%list,
           Returned)
      end
  end.
End Run.

End DeparturesScript.

Module TodoistScript.
Import Py Todoist Script.

Definition API_URL := "https://api.todoist.com/rest/v2/tasks".
Definition SYNC_URL := "https://api.todoist.com/sync/v9/completed/get_all".

(** [get_active] answers the GET for the tasks of today with the list of
    tasks; [get_completed] answers the GET for the completed items with
    what the body holds under 'items', if anything. *)
Record world := {
  getenv : string → option string;
  get_active :
    string → list (string * string) → list (string * string)
    → list Task + string;
  get_completed :
    string → list (string * string) → list (string * string)
    → option (list Item) + string;
  local_clock : DateTime.datetime;
  machine : Pil.installation
}.

(** [d.strftime("%Y-%m-%d")], for a year of four digits *)
Definition strftime_Ymd (d : DateTime.datetime) : string :=
  str (DateTime.year d) ++ "-" ++ DateTime.pad2 (DateTime.month d)
  ++ "-" ++ DateTime.pad2 (DateTime.day d).

Definition priority_labels : list string :=
  ["Low"; "Low"; "Medium"; "High"; "Urgent"].

Section Run.
Context (w : world).

Definition API_TOKEN : option string := getenv w "TODOIST_API_TOKEN".

(** [f"{API_TOKEN}"] *)
Definition token : string := default "None" API_TOKEN.

Definition fetch_today_tasks : list event * TasksData :=
  let headers :=
    [("Authorization", "Bearer " ++ token);
     ("Content-Type", "application/json")] in
  let params := [("filter", "today")] in
  let '(first, active_tasks) :=
    match get_active w API_URL headers params with
    | inl tasks => ([Get API_URL headers params 10], tasks)
    | inr e =>
        ([Get API_URL headers params 10;
          Print ("Error fetching active tasks: " ++ e)], [])
    end in
  let today := strftime_Ymd (local_clock w) in
  let since := [("since", today ++ "T00:00")] in
  let '(second, completed_tasks) :=
    match get_completed w SYNC_URL headers since with
    | inl items => ([Get SYNC_URL headers since 10], default [] items)
    | inr e =>
        ([Get SYNC_URL headers since 10;
          Print ("Error fetching completed tasks: " ++ e)], [])
    end in
  ((first ++ second)%list,
   {| active := Some active_tasks;
      completed_items := Some completed_tasks |}).

(** the line printed for a row, where its priority has a label *)
Definition row_line (task : Row) : option event :=
  if completed task
  then Some (Print ("  [✓] " ++ content task))
  else
    match index priority_labels (priority task) with
    | Some priority_label =>
        Some (Print ("  [ ] [" ++ priority_label ++ "] " ++ content task
                     ++ " - " ++ due_text task))
    | None => None
    end.

(** the loop that prints the rows: the lines printed, and whether it
    came to its end *)
Fixpoint row_lines (tasks : list Row) : list event * outcome :=
  match tasks with
  | [] => ([], Returned)
  | task :: rest =>
      match row_line task with
      | Some line =>
          let '(lines, end_) := row_lines rest in (line :: lines, end_)
      | None => ([], Uncaught (IndexError "list index out of range"))
      end
  end.

Definition main : list event * outcome :=
  let '(fetched, tasks) := fetch_today_tasks in
  let parsing :=
    (Print "Fetching today's tasks from Todoist..." :: fetched
     ++ [Print "Parsing tasks..."])%list in
  let parsed_tasks := parse_tasks (Some tasks) in
  match parsed_tasks with
  | [] =>
      ((parsing ++ [Print "No tasks found for today"]
        ++ rendered (create_display_image (machine w) []
                       "todoist_today.jpg"))%list,
       Returned)
  | _ =>
      let active_count :=
        Z.of_nat (length (filter (λ t, completed t = false) parsed_tasks)) in
      let completed_count :=
        Z.of_nat (length (filter (λ t, completed t = true) parsed_tasks)) in
      let found :=
        Print ("Found " ++ str active_count ++ " active tasks and "
               ++ str completed_count ++ " completed tasks") in
      match row_lines parsed_tasks with
      | (lines, Uncaught e) =>
          ((parsing ++ [found] ++ lines)%list, Uncaught e)
      | (lines, Returned) =>
          ((parsing ++ [found] ++ lines
            ++ [Print (newline ++ "Generating display image...")]
            ++ rendered (create_display_image (machine w) parsed_tasks
                           "todoist_today.jpg")
            ++ [Print "Done!"])%list,
           Returned)
      end
  end.

(** the script run from the command line: the token is looked for when
    the module is loaded, before [main] *)
Definition script : list event * outcome :=
  match API_TOKEN with
  | None | Some "" =>
      ([], Uncaught (Lib (ValueError
         "TODOIST_API_TOKEN not found in environment variables. Copy .env.example to .env and add your token.")))
  | Some _ => main
  end.
End Run.

End TodoistScript.

(** ** Where the drawing calls fall *)

Module Geometry.
Import Pil.

(** the row has a label for [main] to print: it is completed, or its
    priority is an index of the five labels *)
Definition labelled (r : Todoist.Row) : Prop :=
  Todoist.completed r = true ∨ -5 ≤ Todoist.priority r ≤ 4.

(** the smallest and the largest [y] passed to a drawing call *)
Definition top (o : op) : Z :=
  match o with
  | Rectangle _ y0 _ y1 _ => Z.min y0 y1
  | Text _ y _ _ _ => y
  | Line _ y0 _ y1 _ _ => Z.min y0 y1
  | Ellipse _ y0 _ y1 _ _ _ => Z.min y0 y1
  end.

Definition bottom (o : op) : Z :=
  match o with
  | Rectangle _ y0 _ y1 _ => Z.max y0 y1
  | Text _ y _ _ _ => y
  | Line _ y0 _ y1 _ _ => Z.max y0 y1
  | Ellipse _ y0 _ y1 _ _ _ => Z.max y0 y1
  end.

End Geometry.

(** ** Payloads derived from a payload, and further sample inputs *)

Module Shape.
Import Departures.

(** the service with no scheduled time after its third *)
Definition first_three (s : Service) : Service :=
  {| route_id := route_id s;
     service_headsign := service_headsign s;
     live_departures_seconds := live_departures_seconds s;
     next_departures := take 3 <$> next_departures s |}.

(** the payload whose first stop has the services [l] *)
Definition with_services (l : list Service) (rts : option (list Route))
    (rest : list Stop) : option Payload :=
  Some {| stops := Some ({| services := Some l; routes := rts |} :: rest) |}.

(** the entry of the completed list is a JSON object *)
Definition is_dict (i : Todoist.Item) : bool :=
  match i with Todoist.Dict _ _ => true | Todoist.NotDict => false end.

(** the rows [parse_tasks] builds before it sorts them *)
Definition task_rows (d : Todoist.TasksData) : list Todoist.Row :=
  ((Todoist.active_row <$> default [] (Todoist.active d))
   ++ omap Todoist.completed_row
        (default [] (Todoist.completed_items d)))%list.

(** the text has a slash in it *)
Fixpoint has_slash (s : string) : bool :=
  match s with
  | EmptyString => false
  | String c s' => Ascii.eqb c "/" || has_slash s'
  end.

End Shape.

Module Cases.
Import Py DateTime.

(** scheduled at a quarter past eight, written without an offset *)
Definition naive : Departures.Service :=
  {| Departures.route_id := "r175";
     Departures.service_headsign := Some "Centrum";
     Departures.live_departures_seconds := None;
     Departures.next_departures := Some ["2024-01-01T08:15:00"] |}.


(** live in 125 seconds, with a schedule that is no time *)
Definition live_garbled : Departures.Service :=
  {| Departures.route_id := "r9";
     Departures.service_headsign := Some "Wilanowska";
     Departures.live_departures_seconds := Some [125];
     Departures.next_departures := Some ["soon"] |}.

Definition route_a : Departures.Route :=
  {| Departures.id := "r1"; Departures.name := Some "A";
     Departures.route_color := None; Departures.route_text_color := None |}.

Definition route_b : Departures.Route :=
  {| Departures.id := "r1"; Departures.name := Some "B";
     Departures.route_color := None; Departures.route_text_color := None |}.

(** a machine where departures.jpg is there but cannot be opened *)
Definition locked : Upload.world :=
  {| Upload.getenv := λ _, None;
     Upload.exists_ := λ _, true;
     Upload.open_rb := λ _, Raise (OSError "Permission denied");
     Upload.post := λ _ _ _, inr "Connection refused" |}.

(** a completed row *)
Definition done_low : Todoist.Row :=
  {| Todoist.content := "Water plants"; Todoist.priority := 1;
     Todoist.project_id := ""; Todoist.due := None; Todoist.labels := [];
     Todoist.completed := true; Todoist.due_text := "Completed";
     Todoist.sort_key := (1, 0, "water plants") |}.

(** the departures API answering with the sample payload *)
Definition on_time : DeparturesScript.world :=
  {| DeparturesScript.get := λ _ _, inl Sample.payload;
     DeparturesScript.utc_clock := Sample.eight_o_clock;
     DeparturesScript.local_clock := Sample.eight_o_clock;
     DeparturesScript.machine := Sample.monospace |}.

Definition rent : Todoist.Task :=
  {| Todoist.task_content := Some "Pay rent";
     Todoist.task_priority := Some 4;
     Todoist.task_project_id := None;
     Todoist.task_due := None;
     Todoist.task_labels := None |}.

(** a task whose priority is 5 *)
Definition overdue : Todoist.Task :=
  {| Todoist.task_content := Some "File taxes";
     Todoist.task_priority := Some 5;
     Todoist.task_project_id := None;
     Todoist.task_due := None;
     Todoist.task_labels := None |}.

(** no network: both requests fail *)
Definition offline : TodoistScript.world :=
  {| TodoistScript.getenv := λ _, Some "token";
     TodoistScript.get_active := λ _ _ _, inr "Connection refused";
     TodoistScript.get_completed := λ _ _ _, inr "Connection refused";
     TodoistScript.local_clock := Sample.eight_o_clock;
     TodoistScript.machine := Sample.monospace |}.

(** one task of priority 4, one completed item *)
Definition busy : TodoistScript.world :=
  {| TodoistScript.getenv := λ _, Some "token";
     TodoistScript.get_active := λ _ _ _, inl [rent];
     TodoistScript.get_completed := λ _ _ _,
       inl (Some [Todoist.Dict (Some "Water plants") None]);
     TodoistScript.local_clock := Sample.eight_o_clock;
     TodoistScript.machine := Sample.monospace |}.

(** a task of priority 5 among the active ones *)
Definition odd : TodoistScript.world :=
  {| TodoistScript.getenv := λ _, Some "token";
     TodoistScript.get_active := λ _ _ _, inl [rent; overdue];
     TodoistScript.get_completed := λ _ _ _, inl None;
     TodoistScript.local_clock := Sample.eight_o_clock;
     TodoistScript.machine := Sample.monospace |}.

End Cases.

(** * Properties *)

(** ** The sort *)

Section SortFacts.
Context {A K : Type} (key : A → K) (lt : K → K → bool).
Context (le : K → K → Prop).
Hypothesis lt_false : ∀ a b, lt b a = false → le a b.
Hypothesis lt_true : ∀ a b, lt a b = true → le a b.
Hypothesis le_trans : ∀ a b c, le a b → le b c → le a c.

Lemma insert_Permutation x l : Py.insert key lt x l ≡ₚ x :: l.
Proof.
  induction l as [|y l IH]; simpl; [done|].
  destruct (lt (key y) (key x)); [|done].
  rewrite IH. apply Permutation_swap.
Qed.

Lemma sort_Permutation l : Py.sort key lt l ≡ₚ l.
Proof.
  induction l as [|x l IH]; simpl; [done|].
  by rewrite insert_Permutation, IH.
Qed.

Lemma sort_length l : length (Py.sort key lt l) = length l.
Proof. by rewrite sort_Permutation. Qed.

Lemma insert_sorted x l :
  StronglySorted (λ a b, le (key a) (key b)) l →
  StronglySorted (λ a b, le (key a) (key b)) (Py.insert key lt x l).
Proof.
  induction 1 as [|y l Hs IH Hy]; simpl.
  - repeat constructor.
  - destruct (lt (key y) (key x)) eqn:E.
    + constructor; [done|].
      rewrite insert_Permutation. constructor; [by apply lt_true | done].
    + constructor; [by constructor|].
      constructor; [by apply lt_false|].
      eapply Forall_impl; [exact Hy|]. intros z Hz; simpl in *.
      eapply le_trans; [apply lt_false, E | exact Hz].
Qed.

Lemma sort_sorted l :
  StronglySorted (λ a b, le (key a) (key b)) (Py.sort key lt l).
Proof.
  induction l as [|x l IH]; simpl; [constructor | by apply insert_sorted].
Qed.
End SortFacts.

(** The sort is stable: the rows of one key keep their order. *)
Lemma insert_stable {A K} `{EqDecision K} (key : A → K)
    (lt : K → K → bool) (k : K) x l :
  lt k k = false →
  filter (λ y, key y = k) (Py.insert key lt x l)
  = filter (λ y, key y = k) (x :: l).
Proof.
  intros Hirr. induction l as [|y l IH]; simpl; [done|].
  destruct (lt (key y) (key x)) eqn:E; [|done].
  rewrite (filter_cons _ y), IH, !filter_cons.
  destruct (decide (key y = k)) as [Hy|], (decide (key x = k)) as [Hx|];
    try done.
  rewrite Hy, Hx in E. congruence.
Qed.

Lemma sort_stable {A K} `{EqDecision K} (key : A → K)
    (lt : K → K → bool) (k : K) l :
  lt k k = false →
  filter (λ y, key y = k) (Py.sort key lt l) = filter (λ y, key y = k) l.
Proof.
  intros Hirr. induction l as [|x l IH]; simpl; [done|].
  rewrite insert_stable by done. by rewrite !filter_cons, IH.
Qed.

Lemma StronglySorted_take {A} (R : A → A → Prop) n (l : list A) :
  StronglySorted R l → StronglySorted R (take n l).
Proof.
  intros Hs. rewrite <- (take_drop n l) in Hs.
  by apply StronglySorted_app_1_l in Hs.
Qed.

Lemma num_lt_false a b : Py.num_lt b a = false → (a <= b)%Q.
Proof.
  unfold Py.num_lt. intros H. apply Qle_alt. rewrite <- Qcompare_antisym.
  destruct (b ?= a)%Q; simpl; congruence.
Qed.

Lemma num_lt_true a b : Py.num_lt a b = true → (a <= b)%Q.
Proof.
  unfold Py.num_lt. intros H. apply Qlt_le_weak, Qlt_alt.
  by destruct (a ?= b)%Q.
Qed.

(** ** The departures normaliser *)

Section DeparturesFacts.
Import Py DateTime Departures Valid.

Lemma clock_times_ok l :
  forallb timestamp l = true → ∃ ts, clock_times l = Ok ts.
Proof.
  induction l as [|x l IH]; simpl; [by eexists|].
  intros [Hx Hl]%andb_prop. destruct (IH Hl) as [ts Hts].
  unfold timestamp in Hx. unfold fromisoformat.
  destruct (parse x); [|done]. cbn. rewrite Hts. cbn. by eexists.
Qed.

Lemma departure_info_ok routes clock s :
  valid_service s = true →
  ∃ row, departure_info routes (now_utc clock) s = Ok row.
Proof.
  unfold valid_service, departure_info. intros Hv.
  destruct (live_departures_seconds s) as [[|seconds ?]|];
    try (by eexists);
    (destruct (next_departures s) as [[|first more]|]; try (by eexists);
     apply andb_prop in Hv as [Hf Hm];
     unfold aware_timestamp in Hf; unfold fromisoformat;
     destruct (parse first) as [d|] eqn:Hd; [|done];
     destruct (tzinfo d) as [off|] eqn:Hoff; [|done];
     destruct (clock_times_ok _ Hm) as [ts Hts];
     cbn; rewrite Hts; cbn; unfold sub; rewrite Hoff; cbn;
     by eexists).
Qed.

Lemma collect_ok routes clock l :
  forallb valid_service l = true →
  ∃ rows, collect routes (now_utc clock) l = Ok rows.
Proof.
  induction l as [|s l IH]; simpl; [by eexists|].
  intros [Hs Hl]%andb_prop. destruct (IH Hl) as [rows Hrows].
  destruct (departure_info_ok routes clock s Hs) as [row Hrow].
  rewrite Hrow, Hrows. cbn. by eexists.
Qed.

Lemma collect_elem routes ct l rows r :
  collect routes ct l = Ok rows → r ∈ rows →
  ∃ s, s ∈ l ∧ departure_info routes ct s = Ok (Some r).
Proof.
  revert rows. induction l as [|s l IH]; simpl; intros rows Hc Hr.
  - injection Hc as <-. by apply elem_of_nil in Hr.
  - destruct (departure_info routes ct s) as [row|] eqn:Hrow; [|done].
    cbn in Hc. destruct (collect routes ct l) as [rest|]; [|done].
    cbn in Hc. injection Hc as <-.
    destruct row as [d|].
    + apply elem_of_cons in Hr as [->|Hr].
      * exists s. split; [left | done].
      * destruct (IH rest eq_refl Hr) as (s' & Hs' & Hd).
        exists s'. split; [by right | done].
    + destruct (IH rest eq_refl Hr) as (s' & Hs' & Hd).
      exists s'. split; [by right | done].
Qed.

Lemma departure_info_keyed routes clock s r :
  departure_info routes (now_utc clock) s = Ok (Some r) →
  keyed_by clock s r.
Proof.
  unfold departure_info, keyed_by. intros H.
  destruct (live_departures_seconds s) as [[|seconds ?]|];
    try (by injection H as <-).
  all: destruct (next_departures s) as [[|first more]|]; try done.
  all: destruct (fromisoformat first) as [next_dep|]; [|done]; cbn in H.
  all: destruct (clock_times (take 2 more)); [|done]; cbn in H.
  all: destruct (sub next_dep (now_utc clock)) as [delta|] eqn:Hsub;
    [|done].
  all: cbn in H; injection H as <-; split; [done|].
  all: by exists next_dep, delta.
Qed.

Lemma departure_info_none routes ct s :
  has_departures s = false → departure_info routes ct s = Ok None.
Proof.
  unfold has_departures, departure_info.
  by destruct (live_departures_seconds s) as [[|? ?]|],
             (next_departures s) as [[|? ?]|].
Qed.

Lemma collect_filter routes ct l :
  collect routes ct (filter (λ s, has_departures s = true) l)
  = collect routes ct l.
Proof.
  induction l as [|s l IH]; [done|].
  destruct (has_departures s) eqn:Hs.
  - rewrite filter_cons_True by done. simpl. by rewrite IH.
  - rewrite filter_cons_False by congruence. simpl.
    rewrite departure_info_none by done. cbn. rewrite IH.
    by destruct (collect routes ct l).
Qed.
End DeparturesFacts.

(** C1. A valid payload with a first stop is normalised without an
    exception, into at most four rows in ascending order of [sort_key];
    the key of a live row is its first live-seconds value, the key of a
    scheduled row is the seconds from the clock reading to its first
    scheduled time, both on the one scale of rational seconds. *)
Theorem parse_departures_sorted clock data :
  Valid.valid_payload data = true →
  ∃ rows,
    Departures.parse_departures clock data = Py.Ok rows
    ∧ (length rows ≤ 4)%nat
    ∧ StronglySorted
        (λ a b, (Departures.sort_key a <= Departures.sort_key b)%Q) rows
    ∧ ∀ r, r ∈ rows →
        ∃ s, s ∈ Valid.first_stop_services data ∧ Valid.keyed_by clock s r.
Proof.
  unfold Valid.valid_payload, Valid.first_stop_services,
    Departures.parse_departures.
  destruct data as [[[[|stop rest]|]]|]; try done. intros Hv.
  destruct (collect_ok (Departures.routes_by_id
                          (default [] (Departures.routes stop)))
              clock _ Hv) as [rows Hrows].
  rewrite Hrows. cbn. eexists. split; [done|]. split; [|split].
  - rewrite length_take. change (Z.to_nat Departures.MAX_BUSES) with 4%nat.
    lia.
  - apply StronglySorted_take.
    apply (sort_sorted Departures.sort_key Py.num_lt Qle);
      eauto using num_lt_false, num_lt_true, Qle_trans.
  - intros r Hr. apply subseteq_take in Hr.
    rewrite sort_Permutation in Hr.
    destruct (collect_elem _ _ _ _ _ Hrows Hr) as (s & Hs & Hd).
    exists s. split; [done|]. by eapply departure_info_keyed.
Qed.

(** C6. Without a payload, without the key 'stops', or with an empty
    list of stops, [parse_departures] returns the empty list.  A service
    with neither a non-empty live list nor a non-empty scheduled list
    gives no row: the result is the one for the payload without these
    services. *)
Theorem parse_departures_empty clock :
  Departures.parse_departures clock None = Py.Ok []
  ∧ Departures.parse_departures clock
      (Some {| Departures.stops := None |}) = Py.Ok []
  ∧ Departures.parse_departures clock
      (Some {| Departures.stops := Some [] |}) = Py.Ok []
  ∧ (∀ routes current_time s,
        Valid.has_departures s = false →
        Departures.departure_info routes current_time s = Py.Ok None)
  ∧ (∀ stop rest,
        Departures.parse_departures clock
          (Some {| Departures.stops := Some (stop :: rest) |})
        = Departures.parse_departures clock
            (Some {| Departures.stops :=
                       Some (Valid.without_empty_services stop :: rest) |})).
Proof.
  repeat split; try done.
  - intros. by apply departure_info_none.
  - intros stop rest. unfold Departures.parse_departures. simpl.
    by rewrite collect_filter.
Qed.

(** ** The task normaliser *)

Section TodoistFacts.
Import Py Todoist Valid.

Lemma string_leb_trans a b c :
  String.leb a b = true → String.leb b c = true → String.leb a c = true.
Proof.
  unfold String.leb. revert b c.
  induction a as [|ca a IH]; intros [|cb b] [|cc c]; simpl; try done.
  unfold Ascii.compare.
  destruct (N.compare_spec (N_of_ascii ca) (N_of_ascii cb)),
    (N.compare_spec (N_of_ascii cb) (N_of_ascii cc)),
    (N.compare_spec (N_of_ascii ca) (N_of_ascii cc));
    try done; try lia.
  apply IH.
Qed.

Lemma string_ltb_leb a b : String.ltb a b = true → String.leb a b = true.
Proof. unfold String.ltb, String.leb. by destruct (String.compare a b). Qed.

Lemma string_ltb_false a b :
  String.ltb b a = false → String.leb a b = true.
Proof.
  unfold String.ltb, String.leb. rewrite (String.compare_antisym b a).
  by destruct (String.compare a b).
Qed.

Lemma triple_lt_false a b : triple_lt b a = false → triple_le a b.
Proof.
  destruct a as [[a1 a2] a3], b as [[b1 b2] b3].
  unfold triple_lt, triple_le; simpl.
  destruct (Z.eqb_spec b1 a1), (Z.eqb_spec b2 a2); simpl.
  - intros H%string_ltb_false. right. split; [done|]. by right.
  - intros H%Z.ltb_ge. right. split; [done|]. left. lia.
  - intros H%Z.ltb_ge. left. lia.
  - intros H%Z.ltb_ge. left. lia.
Qed.

Lemma triple_lt_true a b : triple_lt a b = true → triple_le a b.
Proof.
  destruct a as [[a1 a2] a3], b as [[b1 b2] b3].
  unfold triple_lt, triple_le; simpl.
  destruct (Z.eqb_spec a1 b1), (Z.eqb_spec a2 b2); simpl.
  - intros H%string_ltb_leb. right. split; [done|]. by right.
  - intros H%Z.ltb_lt. right. split; [done|]. by left.
  - intros H%Z.ltb_lt. by left.
  - intros H%Z.ltb_lt. by left.
Qed.

Lemma triple_le_trans a b c : triple_le a b → triple_le b c → triple_le a c.
Proof.
  unfold triple_le.
  intros [?|[? [?|[? ?]]]] [?|[? [?|[? ?]]]];
    first
      [ left; lia
      | right; split; [lia|];
        first [ left; lia
              | right; split; [lia | by eapply string_leb_trans] ] ].
Qed.

Lemma active_row_keyed t : task_keyed (active_row t).
Proof. done. Qed.

Lemma completed_row_keyed i r : completed_row i = Some r → task_keyed r.
Proof. destruct i; [|done]. by intros [= <-]. Qed.

Lemma task_order_of_keys a b :
  task_keyed a → task_keyed b →
  triple_le (sort_key a) (sort_key b) → task_order a b.
Proof.
  unfold task_keyed, task_order, triple_le.
  destruct (completed a), (completed b); intros Ha Hb.
  - destruct (sort_key a) as [[??]?], (sort_key b) as [[??]?].
    simpl in *. injection Ha as -> ->. injection Hb as -> ->.
    intros [?|[_ [?|[_ ?]]]]; done || lia.
  - rewrite Hb. destruct (sort_key a) as [[??]?]. simpl in *.
    injection Ha as -> ->. intros [?|[? _]]; lia.
  - done.
  - rewrite Ha, Hb. simpl. intros [?|[_ [?|[? ?]]]]; try lia.
    right. split; [lia | done].
Qed.

(** What [parse_tasks] guarantees whatever the payload: at most six
    rows, the active ones first by falling priority and lowercased
    content, the completed ones after them by the text of their key. *)
Lemma parse_tasks_ordered tasks_data :
  (length (parse_tasks tasks_data) ≤ 6)%nat
  ∧ StronglySorted task_order (parse_tasks tasks_data).
Proof.
  unfold parse_tasks. destruct tasks_data as [d|];
    [|split; [simpl; lia | constructor]].
  set (parsed := ((active_row <$> _) ++ omap completed_row _)%list).
  split.
  - rewrite length_take. change (Z.to_nat MAX_TASKS) with 6%nat. lia.
  - apply StronglySorted_take.
    assert (Hk : Forall task_keyed (sort sort_key triple_lt parsed)).
    { rewrite sort_Permutation. apply Forall_app. split.
      - apply Forall_forall. intros r (t & -> & _)%list_elem_of_fmap.
        apply active_row_keyed.
      - apply Forall_forall. intros r (i & _ & Hi)%list_elem_of_omap.
        by eapply completed_row_keyed. }
    pose proof (sort_sorted sort_key triple_lt triple_le
                  triple_lt_false triple_lt_true triple_le_trans parsed)
      as Hs.
    induction Hs as [|r l Hs IH Hr]; [constructor|].
    apply Forall_cons in Hk as [Hkr Hkl].
    constructor; [by apply IH|].
    rewrite Forall_forall in Hr, Hkl |- *. intros x Hx.
    apply task_order_of_keys; auto.
Qed.
End TodoistFacts.

(** C2, at the payload [{'active': [], 'completed': [{'content':
    'apple'}, {}]}].  The item without content is shown as "Untitled
    Task" but keyed by the empty text, so it comes before "apple",
    although "apple" is the smaller of the two lowercased contents. *)
Theorem parse_tasks_untitled_completed_first :
  let rows :=
    Todoist.parse_tasks
      (Some {| Todoist.active := Some [];
               Todoist.completed_items :=
                 Some [Todoist.Dict (Some "apple") None;
                       Todoist.Dict None None] |}) in
  map Todoist.content rows = ["Untitled Task"; "apple"]
  ∧ map Todoist.completed rows = [true; true]
  ∧ String.ltb (Py.lower "apple") (Py.lower "Untitled Task") = true.
Proof. vm_compute. done. Qed.

(** ** The renderers *)

Section RenderFacts.
Import Py Pil.
Context (inst : installation).

Lemma draw_departures_lookup l : ∀ i y (k : nat) dep o,
  l !! k = Some dep →
  i + Z.of_nat k < Departures.MAX_BUSES →
  o ∈ Departures.draw_departure inst (i + Z.of_nat k)
        (y + Departures.row_height * Z.of_nat k) dep →
  o ∈ Departures.draw_departures inst i y l.
Proof.
  induction l as [|d l IH]; intros i y k dep o Hk Hi Ho; [done|].
  simpl. destruct (Z.leb_spec Departures.MAX_BUSES i) as [?|_]; [lia|].
  apply elem_of_app. destruct k as [|k].
  - left. injection Hk as ->.
    by rewrite Z.add_0_r, Z.mul_0_r, Z.add_0_r in Ho.
  - right. apply (IH _ _ k dep); [done | lia |].
    by replace (i + 1 + Z.of_nat k) with (i + Z.of_nat (S k)) by lia;
       replace (y + Departures.row_height
                + Departures.row_height * Z.of_nat k)
         with (y + Departures.row_height * Z.of_nat (S k)) by lia.
Qed.

Lemma draw_tasks_lookup n l : ∀ i y (k : nat) task o,
  l !! k = Some task →
  i + Z.of_nat k < Todoist.MAX_TASKS →
  o ∈ Todoist.draw_task inst n (i + Z.of_nat k)
        (y + Todoist.row_height * Z.of_nat k) task →
  o ∈ Todoist.draw_tasks inst n i y l.
Proof.
  induction l as [|d l IH]; intros i y k task o Hk Hi Ho; [done|].
  simpl. destruct (Z.leb_spec Todoist.MAX_TASKS i) as [?|_]; [lia|].
  apply elem_of_app. destruct k as [|k].
  - left. injection Hk as ->.
    by rewrite Z.add_0_r, Z.mul_0_r, Z.add_0_r in Ho.
  - right. apply (IH _ _ k task); [done | lia |].
    by replace (i + 1 + Z.of_nat k) with (i + Z.of_nat (S k)) by lia;
       replace (y + Todoist.row_height + Todoist.row_height * Z.of_nat k)
         with (y + Todoist.row_height * Z.of_nat (S k)) by lia.
Qed.

(** what is drawn for row [k] of the departures is on the board *)
Lemma departure_on_board local departures path (k : nat) dep o :
  departures !! k = Some dep → (k < 4)%nat →
  o ∈ Departures.draw_departure inst (Z.of_nat k)
        (50 + 47 * Z.of_nat k) dep →
  o ∈ ops (saved_image
             (Departures.create_display_image inst local departures path)).
Proof.
  intros Hk Hlt Ho.
  change (ops _)
    with (Departures.draw_header inst local
          ++ Departures.draw_departures inst 0 50 departures)%list.
  apply elem_of_app. right.
  apply (draw_departures_lookup departures 0 50 k dep); try done.
  change Departures.MAX_BUSES with 4. lia.
Qed.

(** what is drawn for row [k] of the tasks is on the board *)
Lemma task_on_board tasks path (k : nat) task o :
  tasks !! k = Some task → (k < 6)%nat →
  o ∈ Todoist.draw_task inst (Z.of_nat (length tasks)) (Z.of_nat k)
        (58 + 36 * Z.of_nat k) task →
  o ∈ ops (saved_image (Todoist.create_display_image inst tasks path)).
Proof.
  intros Hk Hlt Ho. unfold Todoist.create_display_image.
  cbn [saved_image ops]. rewrite !elem_of_app. right. left.
  apply (draw_tasks_lookup _ tasks 0 58 k task); try done.
  change Todoist.MAX_TASKS with 6. lia.
Qed.
End RenderFacts.

Lemma prefix_split (n : nat) s :
  (n ≤ String.length s)%nat →
  String.length (substring 0 n s) = n
  ∧ ∃ rest, s = substring 0 n s ++ rest.
Proof.
  revert s. induction n as [|n IH]; intros s Hn.
  - destruct s; (split; [done | by eexists]).
  - destruct s as [|c s]; simpl in *; [lia|].
    destruct (IH s ltac:(lia)) as [Hl [rest Hr]].
    split; [by rewrite Hl|]. exists rest.
    change (String c s = String c (substring 0 n s ++ rest)). by f_equal.
Qed.

Lemma priority_color_default p :
  ¬ (1 ≤ p ≤ 4) → Todoist.PRIORITY_COLORS !! p = None.
Proof.
  intros Hp. unfold Todoist.PRIORITY_COLORS.
  rewrite !lookup_insert_ne by lia. apply lookup_empty.
Qed.

Section CellFacts.
Import Py Pil.
Context (inst : installation).

Lemma shown_headsign_long h :
  11 < len h → Departures.shown_headsign h = prefix 10 h ++ ".".
Proof.
  intros H. unfold Departures.shown_headsign.
  by destruct (Z.ltb_spec 11 (len h)); [|lia].
Qed.

Lemma shown_headsign_short h :
  len h ≤ 11 → Departures.shown_headsign h = h.
Proof.
  intros H. unfold Departures.shown_headsign.
  by destruct (Z.ltb_spec 11 (len h)); [lia|].
Qed.

Lemma shown_content_long c :
  26 < len c → Todoist.shown_content c = prefix 23 c ++ "...".
Proof.
  intros H. unfold Todoist.shown_content.
  by destruct (Z.ltb_spec 26 (len c)); [|lia].
Qed.

(** the destination cell of a departure row *)
Lemma destination_cell i y dep :
  Text 80 (y + 9)
       (Departures.shown_headsign (Departures.headsign dep))
       "#CCCCCC" (Departures.dest_font inst)
  ∈ Departures.draw_departure inst i y dep.
Proof.
  unfold Departures.draw_departure. cbv zeta.
  rewrite !elem_of_app. right. left.
  replace (y + 8 + 1) with (y + 9) by lia.
  rewrite !elem_of_cons. auto.
Qed.

(** the text of a task row *)
Lemma content_cell n i y task :
  Text 38 (y + 2) (Todoist.shown_content (Todoist.content task))
       (if Todoist.completed task then Todoist.COMPLETED_COLOR
        else Todoist.TEXT_COLOR)
       (Todoist.task_font inst)
  ∈ Todoist.draw_task inst n i y task.
Proof.
  unfold Todoist.draw_task. cbv zeta.
  rewrite !elem_of_app. right. left.
  rewrite list_elem_of_singleton. done.
Qed.

(** the checkbox of an active task row *)
Lemma active_checkbox n i y task :
  Todoist.completed task = false →
  Ellipse 12 (y + 2) 28 (y + 2 + 16) None
          (Some (default "#808080"
                   (Todoist.PRIORITY_COLORS !! Todoist.priority task))) 2
  ∈ Todoist.draw_task inst n i y task.
Proof.
  intros Hc. unfold Todoist.draw_task, Todoist.checkbox. cbv zeta.
  rewrite Hc. rewrite !elem_of_app. left.
  rewrite list_elem_of_singleton. done.
Qed.
End CellFacts.

(** C3 as stated fails for the departures board: on the sample
    installation at eight o'clock, everything drawn for the empty list is
    drawn for every list, so nothing on the picture says that there are
    no departures. *)
Lemma departures_empty_board_says_nothing :
  ¬ Valid.empty_indication
      (λ rows, Pil.saved_image
                 (Departures.create_display_image Sample.monospace
                    Sample.eight_o_clock rows "departures.jpg")).
Proof.
  intros (o & Ho & rows & Hn). apply Hn.
  change (Pil.ops _)
    with (Departures.draw_header Sample.monospace Sample.eight_o_clock
          ++ Departures.draw_departures Sample.monospace 0 50 rows)%list.
  change (Pil.ops _)
    with (Departures.draw_header Sample.monospace Sample.eight_o_clock
          ++ [])%list in Ho.
  rewrite app_nil_r in Ho. apply elem_of_app. by left.
Qed.

(** C3, amended.  Either renderer, given the empty list, yields an RGB
    picture of 240 by 240 saved as JPEG.  The task board then carries the
    message "All done for today!", which the board of a task does not
    carry; the departures board carries its header, the clock, the three
    column captions and the two rules, and nothing else. *)
Theorem empty_boards inst local path :
  let board :=
    Pil.saved_image (Departures.create_display_image inst local [] path) in
  let today :=
    Pil.saved_image (Todoist.create_display_image inst [] path) in
  Pil.size board = (240, 240)
  ∧ Pil.ops board = Departures.draw_header inst local
  ∧ Pil.texts board
    = ["DEPARTURES"; DateTime.strftime_HM local; "LINE"; "DESTINATION";
       "TIME"]
  ∧ Pil.size today = (240, 240)
  ∧ Pil.Text 50 110 Todoist.empty_message Todoist.ACCENT_COLOR
      (Todoist.task_font inst) ∈ Pil.ops today
  ∧ Valid.empty_indication
      (λ rows, Pil.saved_image
                 (Todoist.create_display_image inst rows path)).
Proof.
  cbv zeta. split; [done|]. split; [apply app_nil_r|].
  split; [done|]. split; [done|].
  assert (Hmsg : Pil.Text 50 110 Todoist.empty_message Todoist.ACCENT_COLOR
                   (Todoist.task_font inst)
                 ∈ Pil.ops (Pil.saved_image
                              (Todoist.create_display_image inst [] path))).
  { unfold Todoist.create_display_image. cbn [Pil.saved_image Pil.ops].
    rewrite !elem_of_app. right. right. simpl.
    rewrite list_elem_of_singleton. done. }
  split; [exact Hmsg|].
  exists (Pil.Text 50 110 Todoist.empty_message Todoist.ACCENT_COLOR
            (Todoist.task_font inst)).
  split; [exact Hmsg|]. exists [Sample.odd_task].
  unfold Todoist.create_display_image. cbn [Pil.saved_image Pil.ops].
  rewrite !elem_of_app. simpl.
  rewrite !elem_of_cons, !elem_of_nil. intros H.
  repeat (destruct H as [H|H]; try discriminate H; try done).
Qed.

(** C4. A destination of more than 11 characters is drawn as its first
    10 characters and a full stop; a task text of more than 26
    characters is drawn as its first 23 characters and three full
    stops.  (Rows 0 to 3 of the departures and 0 to 5 of the tasks are
    the ones drawn.) *)
Theorem long_texts_truncated inst local path departures tasks
    (i j : nat) dep task :
  departures !! i = Some dep → (i < 4)%nat →
  11 < Py.len (Departures.headsign dep) →
  tasks !! j = Some task → (j < 6)%nat →
  26 < Py.len (Todoist.content task) →
  (∃ first10 rest,
      Departures.headsign dep = first10 ++ rest
      ∧ String.length first10 = 10%nat
      ∧ Pil.Text 80 (50 + 47 * Z.of_nat i + 9) (first10 ++ ".")
          "#CCCCCC" (Departures.dest_font inst)
        ∈ Pil.ops (Pil.saved_image
                     (Departures.create_display_image inst local
                        departures path)))
  ∧ (∃ first23 rest,
        Todoist.content task = first23 ++ rest
        ∧ String.length first23 = 23%nat
        ∧ Pil.Text 38 (58 + 36 * Z.of_nat j + 2) (first23 ++ "...")
            (if Todoist.completed task then Todoist.COMPLETED_COLOR
             else Todoist.TEXT_COLOR)
            (Todoist.task_font inst)
          ∈ Pil.ops (Pil.saved_image
                       (Todoist.create_display_image inst tasks path))).
Proof.
  intros Hi Hi4 Hlong Hj Hj6 Hlong'. unfold Py.len in Hlong, Hlong'. split.
  - destruct (prefix_split 10 (Departures.headsign dep)) as [Hl [rest Hr]];
      [lia|].
    exists (Py.prefix 10 (Departures.headsign dep)), rest.
    split; [exact Hr|]. split; [exact Hl|].
    eapply departure_on_board; [exact Hi | exact Hi4 |].
    rewrite <- shown_headsign_long by (unfold Py.len; lia).
    apply destination_cell.
  - destruct (prefix_split 23 (Todoist.content task)) as [Hl [rest Hr]];
      [lia|].
    exists (Py.prefix 23 (Todoist.content task)), rest.
    split; [exact Hr|]. split; [exact Hl|].
    eapply task_on_board; [exact Hj | exact Hj6 |].
    rewrite <- shown_content_long by (unfold Py.len; lia).
    apply content_cell.
Qed.

Lemma departure_info_fields routes ct s r :
  Departures.departure_info routes ct s = Py.Ok (Some r) →
  Departures.headsign r = default "" (Departures.service_headsign s)
  ∧ Departures.route_name r
    = default "???" (routes !! Departures.route_id s ≫= Departures.name).
Proof.
  unfold Departures.departure_info. intros H.
  destruct (Departures.live_departures_seconds s) as [[|seconds ?]|];
    try (by injection H as <-).
  all: destruct (Departures.next_departures s) as [[|first more]|];
    try done.
  all: destruct (DateTime.fromisoformat first) as [next_dep|]; [|done];
    cbn in H.
  all: destruct (Departures.clock_times (take 2 more)); [|done]; cbn in H.
  all: destruct (DateTime.sub next_dep ct) as [delta|]; [|done].
  all: cbn in H; by injection H as <-.
Qed.

Lemma parse_departures_rows clock data rows r :
  Departures.parse_departures clock data = Py.Ok rows → r ∈ rows →
  (length rows ≤ 4)%nat
  ∧ ∃ s, s ∈ Valid.first_stop_services data
         ∧ Departures.departure_info (Valid.first_stop_routes data)
             (DateTime.now_utc clock) s = Py.Ok (Some r).
Proof.
  unfold Departures.parse_departures, Valid.first_stop_services,
    Valid.first_stop_routes.
  destruct data as [[[[|stop rest]|]]|];
    try (intros [= <-] Hr; by apply elem_of_nil in Hr).
  destruct (Departures.collect _ _ _) as [l|] eqn:Hl; [|done].
  cbn. intros [= <-] Hr. split.
  - rewrite length_take. change (Z.to_nat Departures.MAX_BUSES) with 4%nat.
    lia.
  - apply subseteq_take in Hr. rewrite sort_Permutation in Hr.
    by eapply collect_elem.
Qed.

(** C9. A row that [parse_departures] returns comes from a service of
    the first stop; its destination is the headsign of the service, or
    the empty text where the service has none, and its route name is the
    name of the route, or "???" where the route or its name is missing.
    The board then shows the empty text in the destination cell of that
    row. *)
Theorem missing_headsign_empty clock data rows (k : nat) r :
  Departures.parse_departures clock data = Py.Ok rows →
  rows !! k = Some r →
  ∃ s, s ∈ Valid.first_stop_services data
    ∧ Departures.headsign r = default "" (Departures.service_headsign s)
    ∧ Departures.route_name r
      = default "???" (Valid.first_stop_routes data
                         !! Departures.route_id s ≫= Departures.name)
    ∧ (Departures.service_headsign s = None →
       Departures.headsign r = ""
       ∧ ∀ inst local path,
           Pil.Text 80 (50 + 47 * Z.of_nat k + 9) "" "#CCCCCC"
             (Departures.dest_font inst)
           ∈ Pil.ops (Pil.saved_image
                        (Departures.create_display_image inst local rows
                           path))).
Proof.
  intros Hp Hk.
  assert (Hr : r ∈ rows) by (apply list_elem_of_lookup; eauto).
  destruct (parse_departures_rows _ _ _ _ Hp Hr) as (Hlen & s & Hs & Hd).
  destruct (departure_info_fields _ _ _ _ Hd) as [Hh Hn].
  exists s. split; [done|]. split; [done|]. split; [done|].
  intros Hnone. rewrite Hnone in Hh. simpl in Hh. split; [done|].
  intros inst local path.
  apply lookup_lt_Some in Hk as Hlt.
  eapply departure_on_board; [exact Hk | lia |].
  pose proof (destination_cell inst (Z.of_nat k) (50 + 47 * Z.of_nat k) r)
    as Hcell.
  by rewrite Hh in Hcell.
Qed.

(** C10. An active task whose priority is none of 1, 2, 3, 4 still gets
    its row on the task board: the outline of its checkbox in #808080,
    and its text. *)
Theorem odd_priority_gray inst tasks path (j : nat) task :
  tasks !! j = Some task → (j < 6)%nat →
  Todoist.completed task = false →
  ¬ (1 ≤ Todoist.priority task ≤ 4) →
  let board :=
    Pil.saved_image (Todoist.create_display_image inst tasks path) in
  let y := 58 + 36 * Z.of_nat j in
  Pil.Ellipse 12 (y + 2) 28 (y + 2 + 16) None (Some "#808080") 2
    ∈ Pil.ops board
  ∧ Pil.Text 38 (y + 2) (Todoist.shown_content (Todoist.content task))
      Todoist.TEXT_COLOR (Todoist.task_font inst)
    ∈ Pil.ops board.
Proof.
  intros Hj Hj6 Hc Hp. cbv zeta. split.
  - eapply task_on_board; [exact Hj | exact Hj6 |].
    pose proof (active_checkbox inst (Z.of_nat (length tasks)) (Z.of_nat j)
                  (58 + 36 * Z.of_nat j) task Hc) as Hbox.
    by rewrite (priority_color_default _ Hp) in Hbox.
  - eapply task_on_board; [exact Hj | exact Hj6 |].
    pose proof (content_cell inst (Z.of_nat (length tasks)) (Z.of_nat j)
                  (58 + 36 * Z.of_nat j) task) as Htext.
    by rewrite Hc in Htext.
Qed.

(** C8. Two runs of a renderer on the same machine, with the same rows
    and the local clock showing the same hour and minute, leave the same
    file: the same drawing calls on the same canvas, hence the same
    pixels under whatever rasteriser turns the calls into pixels. *)
Theorem rendering_deterministic (Pixels : Type)
    (rasterise : Pil.image → Pixels) (v1 v2 : Valid.invocation)
    departures tasks path :
  Valid.machine v1 = Valid.machine v2 →
  DateTime.hour (Valid.wall_clock v1) = DateTime.hour (Valid.wall_clock v2) →
  DateTime.minute (Valid.wall_clock v1)
  = DateTime.minute (Valid.wall_clock v2) →
  Valid.render_departures v1 departures path
  = Valid.render_departures v2 departures path
  ∧ Valid.render_tasks v1 tasks path = Valid.render_tasks v2 tasks path
  ∧ rasterise (Pil.saved_image (Valid.render_departures v1 departures path))
    = rasterise
        (Pil.saved_image (Valid.render_departures v2 departures path))
  ∧ rasterise (Pil.saved_image (Valid.render_tasks v1 tasks path))
    = rasterise (Pil.saved_image (Valid.render_tasks v2 tasks path)).
Proof.
  intros Hm Hh Hmin.
  assert (Hd : Valid.render_departures v1 departures path
               = Valid.render_departures v2 departures path).
  { unfold Valid.render_departures, Departures.create_display_image,
      Departures.draw_header, DateTime.strftime_HM.
    by rewrite Hm, Hh, Hmin. }
  assert (Ht : Valid.render_tasks v1 tasks path
               = Valid.render_tasks v2 tasks path).
  { unfold Valid.render_tasks. by rewrite Hm. }
  by rewrite Hd, Ht.
Qed.

(** ** The scheduled row *)

Lemma fromisoformat_0815 :
  DateTime.fromisoformat "2024-01-01T08:15:00+00:00"
  = Py.Ok {| DateTime.year := 2024; DateTime.month := 1; DateTime.day := 1;
             DateTime.hour := 8; DateTime.minute := 15;
             DateTime.second := 0; DateTime.microsecond := 0;
             DateTime.tzinfo := Some 0 |}.
Proof. reflexivity. Qed.

Lemma fromisoformat_0830 :
  DateTime.fromisoformat "2024-01-01T08:30:00+00:00"
  = Py.Ok {| DateTime.year := 2024; DateTime.month := 1; DateTime.day := 1;
             DateTime.hour := 8; DateTime.minute := 30;
             DateTime.second := 0; DateTime.microsecond := 0;
             DateTime.tzinfo := Some 0 |}.
Proof. reflexivity. Qed.

(** The further times of a scheduled row: the timestamps at indices 1
    and 2, each as HH:MM, joined by a comma and a space; the key is
    absent when there is none. *)
Lemma additional_times_rule routes ct s first more r :
  (Departures.live_departures_seconds s = None
   ∨ Departures.live_departures_seconds s = Some []) →
  Departures.next_departures s = Some (first :: more) →
  Departures.departure_info routes ct s = Py.Ok (Some r) →
  ∃ ts, Departures.clock_times (take 2 more) = Py.Ok ts
        ∧ Departures.additional_times r
          = match ts with [] => None | _ => Some (Py.join ", " ts) end.
Proof.
  unfold Departures.departure_info. intros Hlive -> H.
  assert (Hs : (next_dep ← DateTime.fromisoformat first;
                additional ← Departures.clock_times (take 2 more);
                delta ← DateTime.sub next_dep ct;
                Py.Ok (Some
                  {| Departures.route_name :=
                       default "???"
                         (routes !! Departures.route_id s
                          ≫= Departures.name);
                     Departures.headsign :=
                       default "" (Departures.service_headsign s);
                     Departures.color :=
                       default "#888888"
                         (routes !! Departures.route_id s
                          ≫= Departures.route_color);
                     Departures.text_color :=
                       default "#FFFFFF"
                         (routes !! Departures.route_id s
                          ≫= Departures.route_text_color);
                     Departures.time_text := DateTime.strftime_HM next_dep;
                     Departures.additional_times :=
                       match additional with
                       | [] => None
                       | _ => Some (Py.join ", " additional)
                       end;
                     Departures.is_live := false;
                     Departures.sort_key := DateTime.total_seconds delta |}))
               = Py.Ok (Some r)).
  { by destruct Hlive as [Hl|Hl]; rewrite Hl in H. }
  clear H. destruct (DateTime.fromisoformat first) as [next_dep|]; [|done].
  cbn in Hs. destruct (Departures.clock_times (take 2 more)) as [ts|];
    [|done].
  cbn in Hs. destruct (DateTime.sub next_dep ct); [|done].
  cbn in Hs. injection Hs as <-. by exists ts.
Qed.

(** C5 as stated fails: for the scheduled service of the scenario the
    row holds, under 'additional_times', the text "08:30" and not a
    list. *)
Lemma additional_times_not_a_list :
  ¬ ∃ r, Departures.parse_departures Sample.eight_o_clock
           Sample.scheduled_payload = Py.Ok [r]
         ∧ Departures.time_text r = "08:15"
         ∧ Departures.item r "additional_times"
           = Some (Departures.VList ["08:30"]).
Proof.
  intros (r & Hr & _ & Hi). vm_compute in Hr. injection Hr as <-.
  vm_compute in Hi. discriminate Hi.
Qed.

Lemma scheduled_info routes clock s :
  (Departures.live_departures_seconds s = None
   ∨ Departures.live_departures_seconds s = Some []) →
  Departures.next_departures s
  = Some ["2024-01-01T08:15:00+00:00"; "2024-01-01T08:30:00+00:00"] →
  ∃ r, Departures.departure_info routes (DateTime.now_utc clock) s
       = Py.Ok (Some r)
       ∧ Departures.is_live r = false
       ∧ Departures.time_text r = "08:15"
       ∧ Departures.additional_times r = Some "08:30".
Proof.
  intros Hlive Hnext. unfold Departures.departure_info. rewrite Hnext.
  assert (Hl : ∀ X (a : Z → X) (b : X),
            match Departures.live_departures_seconds s with
            | Some (seconds :: _) => a seconds
            | _ => b
            end = b) by (intros; by destruct Hlive as [-> | ->]).
  rewrite Hl. rewrite fromisoformat_0815. cbn [mbind Py.result_bind take].
  unfold Departures.clock_times. rewrite fromisoformat_0830.
  cbn [mbind Py.result_bind]. unfold DateTime.sub.
  cbn [DateTime.tzinfo DateTime.now_utc mbind Py.result_bind].
  eexists. split; [reflexivity|]. by vm_compute.
Qed.

(** C5, amended.  A service scheduled at 08:15 and 08:30 (UTC offset
    zero) and without live departures gives, alone at its stop, one row:
    not live, with the time text "08:15" and, under 'additional_times',
    the text "08:30". *)
Theorem scheduled_row_times clock s rts rest :
  (Departures.live_departures_seconds s = None
   ∨ Departures.live_departures_seconds s = Some []) →
  Departures.next_departures s
  = Some ["2024-01-01T08:15:00+00:00"; "2024-01-01T08:30:00+00:00"] →
  ∃ r, Departures.parse_departures clock
         (Some {| Departures.stops :=
                    Some ({| Departures.services := Some [s];
                             Departures.routes := rts |} :: rest) |})
       = Py.Ok [r]
       ∧ Departures.is_live r = false
       ∧ Departures.time_text r = "08:15"
       ∧ Departures.additional_times r = Some "08:30"
       ∧ Departures.item r "additional_times"
         = Some (Departures.VStr "08:30").
Proof.
  intros Hlive Hnext.
  destruct (scheduled_info (Departures.routes_by_id (default [] rts))
              clock s Hlive Hnext) as (r & Hr & Hlv & Ht & Ha).
  assert (Hc : Departures.collect
                 (Departures.routes_by_id (default [] rts))
                 (DateTime.now_utc clock) [s] = Py.Ok [r]).
  { cbn [Departures.collect]. by rewrite Hr. }
  exists r. unfold Departures.parse_departures.
  cbn [Departures.services Departures.routes].
  change (default [] (Some [s])) with [s]. rewrite Hc.
  split; [done|]. split; [done|]. split; [done|].
  split; [done|]. unfold Departures.item. cbn. by rewrite Ha.
Qed.

(** ** The uploader *)

Lemma upload_image_true w image_path :
  (Upload.upload_image w image_path).2 = Py.Ok true
  ↔ Upload.transmitted w image_path.
Proof.
  unfold Upload.upload_image, Upload.transmitted. cbv zeta.
  destruct (Upload.exists_ w image_path); simpl;
    [|split; [done | by intros [? _]]].
  destruct (Upload.open_rb w image_path) as [body|e]; simpl;
    [|split; [done | by intros (_ & ? & ? & ? & _)]].
  destruct (Upload.post w _ _ body) as [r|e] eqn:Hpost; simpl;
    [|split; [done | intros (_ & ? & ? & [= <-] & Hp & _); congruence]].
  destruct (Upload.raise_for_status _ r) as [e|] eqn:Hst; simpl.
  - split; [done|]. intros (_ & ? & ? & [= <-] & Hp & Hs).
    rewrite Hpost in Hp. injection Hp as <-. congruence.
  - split; [|done]. intros _. split; [done|]. by exists body, r.
Qed.

(** C7. For a path that does not exist, [upload_image] prints the error,
    returns False and posts nothing.  When the file is sent and the
    answer is no error status it returns True, and only then; the exit
    status of [main] is 0 exactly when [upload_image] returned True. *)
Theorem upload_outcomes w image_path argv :
  (Upload.exists_ w image_path = false →
   Upload.upload_image w image_path
   = ([Upload.Print ("Error: Image file '" ++ image_path ++ "' not found")],
      Py.Ok false)
   ∧ Forall (λ e, Upload.is_post e = false)
       (Upload.upload_image w image_path).1)
  ∧ (Upload.transmitted w image_path →
     (Upload.upload_image w image_path).2 = Py.Ok true
     ∧ Exists (λ e, Upload.is_post e = true)
         (Upload.upload_image w image_path).1)
  ∧ ((Upload.upload_image w image_path).2 = Py.Ok true →
     Upload.transmitted w image_path)
  ∧ ((Upload.main w argv).2 = 0
     ↔ (Upload.upload_image w (Upload.argv_path argv)).2 = Py.Ok true).
Proof.
  split; [|split; [|split]].
  - intros He. unfold Upload.upload_image. rewrite He. simpl.
    split; [done|]. by repeat constructor.
  - intros Ht. split; [by apply upload_image_true|].
    destruct Ht as (He & body & r & Ho & Hp & Hs).
    unfold Upload.upload_image. cbv zeta. rewrite He, Ho. simpl.
    rewrite Hp, Hs. simpl. apply Exists_cons_tl, Exists_cons_hd. done.
  - apply upload_image_true.
  - unfold Upload.main. fold (Upload.argv_path argv).
    destruct (Upload.upload_image w (Upload.argv_path argv))
      as [evs [[|]|e]]; simpl; split; done.
Qed.

(** ** The theorems at the sample inputs *)

Lemma parse_departures_sorted_witness :
  Valid.valid_payload Sample.payload = true
  ∧ ∃ rows,
      Departures.parse_departures Sample.eight_o_clock Sample.payload
      = Py.Ok rows
      ∧ (length rows ≤ 4)%nat
      ∧ StronglySorted
          (λ a b, (Departures.sort_key a <= Departures.sort_key b)%Q) rows
      ∧ ∀ r, r ∈ rows →
          ∃ s, s ∈ Valid.first_stop_services Sample.payload
               ∧ Valid.keyed_by Sample.eight_o_clock s r.
Proof.
  split; [reflexivity|].
  apply (parse_departures_sorted Sample.eight_o_clock Sample.payload).
  reflexivity.
Defined.

Lemma parse_departures_empty_witness :
  Departures.departure_info ∅ Sample.eight_o_clock Sample.idle = Py.Ok None.
Proof.
  apply (parse_departures_empty Sample.eight_o_clock). reflexivity.
Defined.

Lemma long_texts_truncated_witness :
  (∃ first10 rest,
      "Lotnisko Chopina" = first10 ++ rest
      ∧ String.length first10 = 10%nat
      ∧ Pil.Text 80 (50 + 47 * Z.of_nat 0 + 9) (first10 ++ ".")
          "#CCCCCC" (Departures.dest_font Sample.monospace)
        ∈ Pil.ops (Pil.saved_image
                     (Departures.create_display_image Sample.monospace
                        Sample.eight_o_clock [Sample.scheduled_row]
                        "departures.jpg")))
  ∧ (∃ first23 rest,
        "Renew the library card in town" = first23 ++ rest
        ∧ String.length first23 = 23%nat
        ∧ Pil.Text 38 (58 + 36 * Z.of_nat 0 + 2) (first23 ++ "...")
            Todoist.TEXT_COLOR (Todoist.task_font Sample.monospace)
          ∈ Pil.ops (Pil.saved_image
                       (Todoist.create_display_image Sample.monospace
                          [Sample.odd_task] "departures.jpg"))).
Proof.
  apply (long_texts_truncated Sample.monospace Sample.eight_o_clock
           "departures.jpg" [Sample.scheduled_row] [Sample.odd_task]
           0 0 Sample.scheduled_row Sample.odd_task);
    first [reflexivity | lia | vm_compute; reflexivity].
Defined.

Lemma scheduled_row_times_witness :
  ∃ r, Departures.parse_departures Sample.eight_o_clock
         Sample.scheduled_payload = Py.Ok [r]
       ∧ Departures.is_live r = false
       ∧ Departures.time_text r = "08:15"
       ∧ Departures.additional_times r = Some "08:30"
       ∧ Departures.item r "additional_times"
         = Some (Departures.VStr "08:30").
Proof.
  apply (scheduled_row_times Sample.eight_o_clock Sample.scheduled
           (Some [Sample.route_175]) []).
  - left. reflexivity.
  - reflexivity.
Defined.

Lemma upload_outcomes_witness :
  Upload.upload_image Sample.bare "departures.jpg"
  = ([Upload.Print "Error: Image file 'departures.jpg' not found"],
     Py.Ok false)
  ∧ (Upload.upload_image Sample.online "departures.jpg").2 = Py.Ok true
  ∧ (Upload.main Sample.online []).2 = 0.
Proof.
  split; [|split].
  - apply (proj1 (upload_outcomes Sample.bare "departures.jpg" [])).
    reflexivity.
  - apply (proj1 (proj2 (upload_outcomes Sample.online "departures.jpg"
                           []))).
    split; [reflexivity|].
    eexists _, _. repeat split; reflexivity.
  - apply (proj2 (proj2 (proj2 (upload_outcomes Sample.online
                                  "departures.jpg" [])))).
    reflexivity.
Defined.

Lemma rendering_deterministic_witness :
  let v1 := {| Valid.machine := Sample.monospace;
               Valid.wall_clock := Sample.eight_o_clock |} in
  let v2 := {| Valid.machine := Sample.monospace;
               Valid.wall_clock := Sample.eight_and_a_half |} in
  Valid.render_departures v1 [Sample.live_row] "departures.jpg"
  = Valid.render_departures v2 [Sample.live_row] "departures.jpg"
  ∧ Valid.render_tasks v1 [Sample.odd_task] "departures.jpg"
    = Valid.render_tasks v2 [Sample.odd_task] "departures.jpg"
  ∧ Pil.ops (Pil.saved_image
               (Valid.render_departures v1 [Sample.live_row]
                  "departures.jpg"))
    = Pil.ops (Pil.saved_image
                 (Valid.render_departures v2 [Sample.live_row]
                    "departures.jpg"))
  ∧ Pil.ops (Pil.saved_image
               (Valid.render_tasks v1 [Sample.odd_task] "departures.jpg"))
    = Pil.ops (Pil.saved_image
                 (Valid.render_tasks v2 [Sample.odd_task]
                    "departures.jpg")).
Proof.
  cbv zeta.
  apply (rendering_deterministic (list Pil.op) Pil.ops
           {| Valid.machine := Sample.monospace;
              Valid.wall_clock := Sample.eight_o_clock |}
           {| Valid.machine := Sample.monospace;
              Valid.wall_clock := Sample.eight_and_a_half |}
           [Sample.live_row] [Sample.odd_task] "departures.jpg");
    reflexivity.
Defined.

Lemma missing_headsign_empty_witness :
  ∃ s, s ∈ Valid.first_stop_services Sample.payload
    ∧ Departures.headsign Sample.live_row
      = default "" (Departures.service_headsign s)
    ∧ Departures.route_name Sample.live_row
      = default "???" (Valid.first_stop_routes Sample.payload
                         !! Departures.route_id s ≫= Departures.name)
    ∧ (Departures.service_headsign s = None →
       Departures.headsign Sample.live_row = ""
       ∧ ∀ inst local path,
           Pil.Text 80 (50 + 47 * Z.of_nat 0 + 9) "" "#CCCCCC"
             (Departures.dest_font inst)
           ∈ Pil.ops (Pil.saved_image
                        (Departures.create_display_image inst local
                           [Sample.live_row; Sample.scheduled_row] path))).
Proof.
  apply (missing_headsign_empty Sample.eight_o_clock Sample.payload
           [Sample.live_row; Sample.scheduled_row] 0 Sample.live_row).
  - vm_compute. reflexivity.
  - reflexivity.
Defined.

Lemma odd_priority_gray_witness :
  Pil.Ellipse 12 (58 + 36 * Z.of_nat 0 + 2) 28
    (58 + 36 * Z.of_nat 0 + 2 + 16) None (Some "#808080") 2
    ∈ Pil.ops (Pil.saved_image
                 (Todoist.create_display_image Sample.monospace
                    [Sample.odd_task] "todoist_today.jpg"))
  ∧ Pil.Text 38 (58 + 36 * Z.of_nat 0 + 2)
      (Todoist.shown_content (Todoist.content Sample.odd_task))
      Todoist.TEXT_COLOR (Todoist.task_font Sample.monospace)
    ∈ Pil.ops (Pil.saved_image
                 (Todoist.create_display_image Sample.monospace
                    [Sample.odd_task] "todoist_today.jpg")).
Proof.
  apply (odd_priority_gray Sample.monospace [Sample.odd_task]
           "todoist_today.jpg" 0 Sample.odd_task).
  - reflexivity.
  - lia.
  - reflexivity.
  - simpl. lia.
Defined.


(** * Further properties of the code *)

(** ** What the departures normaliser keeps, drops and raises *)

Lemma departure_info_has_departures routes ct s row :
  Departures.departure_info routes ct s = Py.Ok row →
  Valid.has_departures s = match row with Some _ => true | None => false end.
Proof.
  unfold Departures.departure_info, Valid.has_departures. intros H.
  destruct (Departures.live_departures_seconds s) as [[|? ?]|];
    try (by injection H as <-).
  all: destruct (Departures.next_departures s) as [[|first more]|];
    try (by injection H as <-).
  all: destruct (DateTime.fromisoformat first); [|done]; cbn in H.
  all: destruct (Departures.clock_times (take 2 more)); [|done]; cbn in H.
  all: destruct (DateTime.sub _ ct); [|done]; cbn in H.
  all: by injection H as <-.
Qed.

Lemma collect_length routes ct l built :
  Departures.collect routes ct l = Py.Ok built →
  length built = length (filter (λ s, Valid.has_departures s = true) l).
Proof.
  revert built. induction l as [|s l IH]; simpl; intros built H.
  - by injection H as <-.
  - destruct (Departures.departure_info routes ct s) as [row|] eqn:Hrow;
      [|done].
    cbn in H. destruct (Departures.collect routes ct l) as [rest|]; [|done].
    cbn in H. injection H as <-.
    apply departure_info_has_departures in Hrow.
    rewrite filter_cons. destruct row; rewrite Hrow; simpl.
    + by rewrite (IH rest).
    + by rewrite (IH rest).
Qed.

Lemma collect_first_stop clock data rows :
  Departures.parse_departures clock data = Py.Ok rows →
  ∃ built,
    Departures.collect (Valid.first_stop_routes data)
      (DateTime.now_utc clock) (Valid.first_stop_services data)
    = Py.Ok built
    ∧ rows = take 4 (Py.sort Departures.sort_key Py.num_lt built).
Proof.
  unfold Departures.parse_departures, Valid.first_stop_services,
    Valid.first_stop_routes.
  destruct data as [[[[|stop rest]|]]|];
    try (intros [= <-]; by exists []).
  destruct (Departures.collect _ _ _) as [l|]; [|done].
  cbn. intros [= <-]. by exists l.
Qed.

(** X1. Of the rows built from the services of the first stop,
    [parse_departures] returns the four with the smallest keys (all of
    them when there are fewer): no row it leaves out departs sooner than
    a row it returns. *)
Theorem parse_departures_keeps_soonest clock data rows :
  Departures.parse_departures clock data = Py.Ok rows →
  ∃ built dropped,
    Departures.collect (Valid.first_stop_routes data)
      (DateTime.now_utc clock) (Valid.first_stop_services data)
    = Py.Ok built
    ∧ rows ++ dropped ≡ₚ built
    ∧ length rows = (4 `min` length built)%nat
    ∧ ∀ r d, r ∈ rows → d ∈ dropped →
        (Departures.sort_key r <= Departures.sort_key d)%Q.
Proof.
  intros (built & Hb & ->)%collect_first_stop.
  exists built, (drop 4 (Py.sort Departures.sort_key Py.num_lt built)).
  split; [done|]. split; [|split].
  - by rewrite take_drop, sort_Permutation.
  - by rewrite length_take, sort_length.
  - intros r d Hr Hd.
    pose proof (sort_sorted Departures.sort_key Py.num_lt Qle
                  num_lt_false num_lt_true Qle_trans built) as Hs.
    rewrite <- (take_drop 4) in Hs.
    by apply (StronglySorted_app_1_elem_of _ _ _ r d) in Hs.
Qed.

Lemma first_stop_row_count clock data rows :
  Departures.parse_departures clock data = Py.Ok rows →
  length rows
  = (4 `min` length (filter (λ s, Valid.has_departures s = true)
                       (Valid.first_stop_services data)))%nat.
Proof.
  intros (built & Hb & ->)%collect_first_stop.
  rewrite length_take, sort_length. by rewrite (collect_length _ _ _ _ Hb).
Qed.

Lemma valid_payload_ok clock data :
  Valid.valid_payload data = true →
  ∃ rows, Departures.parse_departures clock data = Py.Ok rows.
Proof.
  unfold Valid.valid_payload, Departures.parse_departures.
  destruct data as [[[[|stop rest]|]]|]; try done. intros Hv.
  destruct (collect_ok (Departures.routes_by_id
                          (default [] (Departures.routes stop)))
              clock _ Hv) as [rows ->].
  cbn. by eexists.
Qed.

(** X2. The number of rows [parse_departures] returns is the number of
    services of the first stop that carry departure data, or four when
    there are more. *)
Theorem parse_departures_row_count clock data rows :
  Departures.parse_departures clock data = Py.Ok rows →
  length rows
  = (4 `min` length (filter (λ s, Valid.has_departures s = true)
                       (Valid.first_stop_services data)))%nat.
Proof. apply first_stop_row_count. Qed.

Lemma collect_app_raise routes ct before s after e built :
  Departures.collect routes ct before = Py.Ok built →
  Departures.departure_info routes ct s = Py.Raise e →
  Departures.collect routes ct (before ++ s :: after) = Py.Raise e.
Proof.
  revert built. induction before as [|x before IH]; simpl; intros built H Hs.
  - by rewrite Hs.
  - destruct (Departures.departure_info routes ct x); [|done]. cbn in *.
    destruct (Departures.collect routes ct before) as [b|]; [|done].
    by rewrite (IH b).
Qed.

Lemma no_live_data s {X} (a : Z → X) (b : X) :
  Departures.live_departures_seconds s = None
  ∨ Departures.live_departures_seconds s = Some [] →
  match Departures.live_departures_seconds s with
  | Some (seconds :: _) => a seconds
  | _ => b
  end = b.
Proof. by intros [-> | ->]. Qed.

(** X3. A scheduled time written without a UTC offset stops the whole
    normaliser: when the first timestamp of a service without live data
    reads as a naive time, the services before it being valid,
    [parse_departures] raises the [TypeError] of subtracting the aware
    clock reading from it, whatever the other services hold. *)
Theorem naive_timestamp_raises clock before s after rts rest first more d :
  forallb Valid.valid_service before = true →
  (Departures.live_departures_seconds s = None
   ∨ Departures.live_departures_seconds s = Some []) →
  Departures.next_departures s = Some (first :: more) →
  DateTime.parse first = Some d → DateTime.tzinfo d = None →
  forallb Valid.timestamp (take 2 more) = true →
  Departures.parse_departures clock
    (Shape.with_services (before ++ s :: after) rts rest)
  = Py.Raise
      (Py.TypeError "can't subtract offset-naive and offset-aware datetimes").
Proof.
  intros Hb Hlive Hnext Hd Htz Hmore.
  unfold Departures.parse_departures, Shape.with_services.
  cbn [Departures.services Departures.routes].
  change (default [] (Some ?x)) with x.
  destruct (collect_ok (Departures.routes_by_id (default [] rts)) clock
              before Hb) as [built Hbuilt].
  erewrite collect_app_raise; [done | exact Hbuilt |].
  unfold Departures.departure_info. rewrite Hnext, no_live_data by done.
  unfold DateTime.fromisoformat. rewrite Hd. cbn.
  destruct (clock_times_ok _ Hmore) as [ts ->]. cbn.
  unfold DateTime.sub. by rewrite Htz.
Qed.


Lemma live_info routes current_time s seconds more :
  Departures.live_departures_seconds s = Some (seconds :: more) →
  ∃ r, Departures.departure_info routes current_time s = Py.Ok (Some r)
       ∧ Departures.is_live r = true
       ∧ Departures.time_text r = Py.str (seconds / 60) ++ " min"
       ∧ Departures.sort_key r = inject_Z seconds
       ∧ Departures.additional_times r = None.
Proof.
  intros Hlive. unfold Departures.departure_info.
  rewrite Hlive. eexists. by repeat split.
Qed.

(** X5. Live data wins: when every service of the first stop has a
    non-empty list of live seconds, [parse_departures] raises nothing,
    whatever stands in their scheduled times, which are not read; it
    returns as many rows as there are services, four at most, each of
    them live, without further times, showing the whole minutes of the
    first live value and keyed by that value. *)
Theorem live_data_wins clock l rts rest :
  Forall (λ s, ∃ seconds more,
            Departures.live_departures_seconds s = Some (seconds :: more)) l →
  ∃ rows,
    Departures.parse_departures clock (Shape.with_services l rts rest)
    = Py.Ok rows
    ∧ length rows = (4 `min` length l)%nat
    ∧ ∀ r, r ∈ rows →
        Departures.is_live r = true
        ∧ Departures.additional_times r = None
        ∧ ∃ s seconds more,
            s ∈ l
            ∧ Departures.live_departures_seconds s = Some (seconds :: more)
            ∧ Departures.time_text r = Py.str (seconds / 60) ++ " min"
            ∧ Departures.sort_key r = inject_Z seconds.
Proof.
  intros Hl.
  assert (Hv : forallb Valid.valid_service l = true).
  { apply forallb_forall. intros s Hs%list_elem_of_In.
    rewrite Forall_forall in Hl.
    destruct (Hl s Hs) as (seconds & more & Hlive).
    unfold Valid.valid_service. by rewrite Hlive. }
  assert (Hd : filter (λ s, Valid.has_departures s = true) l = l).
  { clear Hv. induction Hl as [|s l (seconds & more & Hlive) _ IH]; [done|].
    rewrite filter_cons_True; [by rewrite IH|].
    unfold Valid.has_departures. by rewrite Hlive. }
  destruct (valid_payload_ok clock (Shape.with_services l rts rest) Hv)
    as (rows & Hrows).
  exists rows. split; [done|]. split.
  - rewrite (first_stop_row_count _ _ _ Hrows).
    unfold Shape.with_services, Valid.first_stop_services.
    cbn [Departures.services]. change (default [] (Some l)) with l.
    by rewrite Hd.
  - intros r Hr.
    destruct (parse_departures_rows _ _ _ _ Hrows Hr) as (_ & s & Hs & Hi).
    unfold Shape.with_services, Valid.first_stop_services in Hs.
    cbn [Departures.services] in Hs. change (default [] (Some l)) with l in Hs.
    rewrite Forall_forall in Hl.
    destruct (Hl s Hs) as (seconds & more & Hlive).
    destruct (live_info (Valid.first_stop_routes
                           (Shape.with_services l rts rest))
                (DateTime.now_utc clock) s seconds more Hlive)
      as (r' & Hr' & Hlv & Ht & Hk & Ha).
    rewrite Hi in Hr'. injection Hr' as <-.
    split; [done|]. split; [done|]. by exists s, seconds, more.
Qed.

(** X6. The routes are looked up by id, and of two routes with one id
    the later replaces the earlier: the route found for an id is the last
    route of the list with that id. *)
Theorem routes_by_id_last_wins rs k :
  Departures.routes_by_id rs !! k
  = last (filter (λ r, Departures.id r = k) rs).
Proof.
  unfold Departures.routes_by_id.
  induction rs as [|r rs IH] using rev_ind; [done|].
  rewrite foldl_snoc, filter_app, last_app.
  destruct (decide (Departures.id r = k)) as [<-|Hne].
  - rewrite lookup_insert_eq.
    by rewrite (filter_singleton_True _ r []) by done.
  - rewrite lookup_insert_ne by done.
    by rewrite (filter_singleton_False _ r []) by done.
Qed.

(** X7. Of the scheduled times of a service only the first three are
    read: what follows them changes neither the row nor the exception. *)
Theorem later_timestamps_ignored clock l rts rest :
  Departures.parse_departures clock
    (Shape.with_services (Shape.first_three <$> l) rts rest)
  = Departures.parse_departures clock (Shape.with_services l rts rest).
Proof.
  unfold Departures.parse_departures, Shape.with_services.
  cbn [Departures.services Departures.routes].
  change (default [] (Some ?x)) with x.
  assert (Hc : ∀ routes ct,
            Departures.collect routes ct (Shape.first_three <$> l)
            = Departures.collect routes ct l).
  { intros routes ct. induction l as [|s l IH]; [done|].
    cbn [fmap list_fmap Departures.collect]. rewrite IH. f_equal.
    unfold Departures.departure_info, Shape.first_three. simpl.
    destruct (Departures.live_departures_seconds s) as [[|? ?]|];
      try done;
      (destruct (Departures.next_departures s) as [[|first more]|];
       try done; simpl; by rewrite take_take). }
  by rewrite Hc.
Qed.

(** ** What the task normaliser keeps *)

Lemma task_rows_keyed d : Forall Valid.task_keyed (Shape.task_rows d).
Proof.
  apply Forall_app. split.
  - apply Forall_forall. intros r (t & -> & _)%list_elem_of_fmap.
    apply active_row_keyed.
  - apply Forall_forall. intros r (i & _ & Hi)%list_elem_of_omap.
    by eapply completed_row_keyed.
Qed.

Lemma completed_rows_length c :
  length (omap Todoist.completed_row c)
  = length (filter (λ i, Shape.is_dict i = true) c).
Proof.
  induction c as [|i c IH]; [done|].
  destruct i.
  - rewrite filter_cons_True by done. cbn. by f_equal.
  - by rewrite filter_cons_False by done.
Qed.

(** X8. [parse_tasks] builds one row for each active task and one for
    each completed entry that is a JSON object, and returns the first six
    of them in the order of their keys: no row it leaves out ranks
    before a row it returns. *)
Theorem parse_tasks_keeps_first_six d :
  let rows := Todoist.parse_tasks (Some d) in
  length (Shape.task_rows d)
  = (length (default [] (Todoist.active d))
     + length (filter (λ i, Shape.is_dict i = true)
                 (default [] (Todoist.completed_items d))))%nat
  ∧ length rows = (6 `min` length (Shape.task_rows d))%nat
  ∧ ∃ dropped,
      rows ++ dropped ≡ₚ Shape.task_rows d
      ∧ ∀ r x, r ∈ rows → x ∈ dropped → Valid.task_order r x.
Proof.
  cbv zeta. unfold Todoist.parse_tasks. fold (Shape.task_rows d).
  change (Z.to_nat Todoist.MAX_TASKS) with 6%nat.
  split; [|split].
  - unfold Shape.task_rows.
    by rewrite length_app, length_fmap, completed_rows_length.
  - by rewrite length_take, sort_length.
  - exists (drop 6 (Py.sort Todoist.sort_key Py.triple_lt (Shape.task_rows d))).
    split; [by rewrite take_drop, sort_Permutation|].
    intros r x Hr Hx.
    pose proof (sort_sorted Todoist.sort_key Py.triple_lt Valid.triple_le
                  triple_lt_false triple_lt_true triple_le_trans
                  (Shape.task_rows d)) as Hs.
    rewrite <- (take_drop 6) in Hs.
    apply (StronglySorted_app_1_elem_of _ _ _ r x) in Hs; [|done..].
    pose proof (task_rows_keyed d) as Hk.
    rewrite <- (sort_Permutation Todoist.sort_key Py.triple_lt) in Hk.
    rewrite Forall_forall in Hk.
    apply task_order_of_keys; [| |done].
    + apply Hk. by apply subseteq_take in Hr.
    + apply Hk. by apply subseteq_drop in Hx.
Qed.

(** ** Where the rows fall on the boards *)

Ltac split_cases H :=
  repeat match type of H with
         | context [if ?c then _ else _] => destruct c
         | context [match ?c with Some _ => _ | None => _ end] => destruct c
         end.

Ltac in_list H :=
  repeat first
    [ apply elem_of_nil in H; destruct H
    | apply elem_of_cons in H as [->|H]
    | apply elem_of_app in H as [H|H] ].

Section SpanFacts.
Import Pil Geometry.
Context (inst : installation).

Lemma draw_departure_span i y dep o :
  o ∈ Departures.draw_departure inst i y dep →
  y - 2 ≤ top o ∧ bottom o ≤ y + 45.
Proof.
  unfold Departures.draw_departure. cbv zeta.
  unfold Departures.row_height, Departures.IMAGE_WIDTH. intros H.
  split_cases H; in_list H; simpl; lia.
Qed.

Lemma draw_task_span n i y task o :
  o ∈ Todoist.draw_task inst n i y task →
  y + 2 ≤ top o ∧ bottom o ≤ y + 34.
Proof.
  unfold Todoist.draw_task, Todoist.checkbox. cbv zeta.
  unfold Todoist.row_height. intros H.
  split_cases H; in_list H; simpl; lia.
Qed.

(** a call made for the rows is a call made for one of the rows drawn *)
Lemma draw_departures_inv l : ∀ i y o,
  o ∈ Departures.draw_departures inst i y l →
  ∃ (k : nat) dep,
    l !! k = Some dep ∧ i + Z.of_nat k < Departures.MAX_BUSES
    ∧ o ∈ Departures.draw_departure inst (i + Z.of_nat k)
            (y + Departures.row_height * Z.of_nat k) dep.
Proof.
  induction l as [|d l IH]; intros i y o Ho; simpl in Ho;
    [by apply elem_of_nil in Ho|].
  destruct (Z.leb_spec Departures.MAX_BUSES i) as [?|Hi];
    [by apply elem_of_nil in Ho|].
  apply elem_of_app in Ho as [Ho|Ho].
  - exists 0%nat, d. rewrite Z.add_0_r, Z.mul_0_r, Z.add_0_r. by repeat split.
  - destruct (IH _ _ _ Ho) as (k & dep & Hk & Hlt & Hin).
    exists (S k), dep. split; [done|]. split; [lia|].
    by replace (i + Z.of_nat (S k)) with (i + 1 + Z.of_nat k) by lia;
       replace (y + Departures.row_height * Z.of_nat (S k))
         with (y + Departures.row_height
               + Departures.row_height * Z.of_nat k) by lia.
Qed.

Lemma draw_tasks_inv n l : ∀ i y o,
  o ∈ Todoist.draw_tasks inst n i y l →
  ∃ (k : nat) task,
    l !! k = Some task ∧ i + Z.of_nat k < Todoist.MAX_TASKS
    ∧ o ∈ Todoist.draw_task inst n (i + Z.of_nat k)
            (y + Todoist.row_height * Z.of_nat k) task.
Proof.
  induction l as [|d l IH]; intros i y o Ho; simpl in Ho;
    [by apply elem_of_nil in Ho|].
  destruct (Z.leb_spec Todoist.MAX_TASKS i) as [?|Hi];
    [by apply elem_of_nil in Ho|].
  apply elem_of_app in Ho as [Ho|Ho].
  - exists 0%nat, d. rewrite Z.add_0_r, Z.mul_0_r, Z.add_0_r. by repeat split.
  - destruct (IH _ _ _ Ho) as (k & task & Hk & Hlt & Hin).
    exists (S k), task. split; [done|]. split; [lia|].
    by replace (i + Z.of_nat (S k)) with (i + 1 + Z.of_nat k) by lia;
       replace (y + Todoist.row_height * Z.of_nat (S k))
         with (y + Todoist.row_height + Todoist.row_height * Z.of_nat k)
         by lia.
Qed.

(** the calls of the task board: the heading, the rows, the message *)
Lemma task_board_ops tasks path o :
  o ∈ ops (saved_image (Todoist.create_display_image inst tasks path)) →
  o ∈ [Text 12 10 "Today" Todoist.ACCENT_COLOR (Todoist.title_font inst);
       Text 12 30 (Todoist.count_caption tasks) "#888888"
            (Todoist.label_font inst);
       Line 0 50 Todoist.IMAGE_WIDTH 50 Todoist.BORDER_COLOR 1]
  ∨ o ∈ Todoist.draw_tasks inst (Z.of_nat (length tasks)) 0 58 tasks
  ∨ (tasks = []
     ∧ o = Text 50 110 Todoist.empty_message Todoist.ACCENT_COLOR
             (Todoist.task_font inst)).
Proof.
  unfold Todoist.create_display_image. cbn [saved_image ops].
  rewrite !elem_of_app. intros [H|[H|H]]; [by left | by right; left |].
  right. right. destruct tasks; simpl in H.
  - by apply list_elem_of_singleton in H.
  - by apply elem_of_nil in H.
Qed.
End SpanFacts.

(** X9. Every drawing call of the departures board lies between the top
    of the canvas and line 236, whatever the rows and however many: the
    heading ends at line 45 and the four rows drawn fill the lines from
    48 to 236. *)
Theorem departures_board_span inst local departures path o :
  o ∈ Pil.ops (Pil.saved_image
                 (Departures.create_display_image inst local departures
                    path)) →
  0 ≤ Geometry.top o ∧ Geometry.bottom o ≤ 236
  ∧ (45 < Geometry.bottom o → 48 ≤ Geometry.top o).
Proof.
  change (Pil.ops _)
    with (Departures.draw_header inst local
          ++ Departures.draw_departures inst 0 50 departures)%list.
  intros [H|H]%elem_of_app.
  - unfold Departures.draw_header in H. cbv zeta in H.
    in_list H; simpl; lia.
  - destruct (draw_departures_inv inst _ _ _ _ H) as (k & dep & _ & Hk & Ho).
    apply draw_departure_span in Ho.
    unfold Departures.MAX_BUSES, Departures.row_height in *. lia.
Qed.

Lemma draw_departures_take inst l : ∀ i y,
  Departures.draw_departures inst i y l
  = Departures.draw_departures inst i y
      (take (Z.to_nat (Departures.MAX_BUSES - i)) l).
Proof.
  induction l as [|d l IH]; intros i y; [by rewrite take_nil|].
  simpl. destruct (Z.leb_spec Departures.MAX_BUSES i) as [Hi|Hi].
  - replace (Z.to_nat (Departures.MAX_BUSES - i)) with 0%nat by lia. done.
  - replace (Z.to_nat (Departures.MAX_BUSES - i))
      with (S (Z.to_nat (Departures.MAX_BUSES - (i + 1)))) by lia.
    simpl. destruct (Z.leb_spec Departures.MAX_BUSES i); [lia|].
    by rewrite <- IH.
Qed.

(** X10. The departures board shows the first four rows it is given and
    is the same file as the board of these four alone. *)
Theorem departures_board_first_four inst local departures path :
  Departures.create_display_image inst local departures path
  = Departures.create_display_image inst local (take 4 departures) path.
Proof.
  unfold Departures.create_display_image.
  by rewrite (draw_departures_take inst departures 0 50).
Qed.

(** X11. On the task board the heading and the first five rows lie
    between line 10 and line 236; any other call belongs to the sixth
    row and lies on or below line 240, the height of the canvas. *)
Theorem tasks_board_span inst tasks path o :
  o ∈ Pil.ops (Pil.saved_image
                 (Todoist.create_display_image inst tasks path)) →
  10 ≤ Geometry.top o
  ∧ (Geometry.bottom o ≤ 236
     ∨ (Todoist.IMAGE_HEIGHT ≤ Geometry.top o
        ∧ ∃ task, tasks !! 5%nat = Some task
                  ∧ o ∈ Todoist.draw_task inst (Z.of_nat (length tasks))
                          5 238 task)).
Proof.
  intros [H|[H|[_ ->]]]%task_board_ops.
  - in_list H; simpl; unfold Todoist.IMAGE_WIDTH; lia.
  - destruct (draw_tasks_inv inst _ _ _ _ _ H) as (k & task & Hk & Hlt & Ho).
    pose proof (draw_task_span inst _ _ _ _ _ Ho) as Hspan.
    unfold Todoist.MAX_TASKS, Todoist.row_height, Todoist.IMAGE_HEIGHT in *.
    destruct (decide (k = 5%nat)) as [->|Hne].
    + split; [lia|]. right. split; [lia|]. by exists task.
    + split; [lia|]. left. lia.
  - simpl. lia.
Qed.

(** X12. With six tasks or more, the sixth is drawn, and drawn out of
    sight: each of its calls is on the board and starts on or below line
    240, its text at line 240 precisely. *)
Theorem sixth_task_below_canvas inst tasks path task :
  tasks !! 5%nat = Some task →
  let board :=
    Pil.saved_image (Todoist.create_display_image inst tasks path) in
  Pil.Text 38 240 (Todoist.shown_content (Todoist.content task))
    (if Todoist.completed task then Todoist.COMPLETED_COLOR
     else Todoist.TEXT_COLOR)
    (Todoist.task_font inst) ∈ Pil.ops board
  ∧ ∀ o, o ∈ Todoist.draw_task inst (Z.of_nat (length tasks)) 5 238 task →
         o ∈ Pil.ops board ∧ Todoist.IMAGE_HEIGHT ≤ Geometry.top o.
Proof.
  intros Ht. cbv zeta.
  assert (Hon : ∀ o,
            o ∈ Todoist.draw_task inst (Z.of_nat (length tasks)) 5 238 task →
            o ∈ Pil.ops (Pil.saved_image
                           (Todoist.create_display_image inst tasks path))).
  { intros o Ho. by apply (task_on_board inst tasks path 5 task); [|lia|]. }
  split.
  - apply Hon. apply (content_cell inst _ 5 238 task).
  - intros o Ho. split; [by apply Hon|].
    apply draw_task_span in Ho. unfold Todoist.IMAGE_HEIGHT. lia.
Qed.

(** ** The rules between the rows, the completed rows, the message *)

Ltac in_eqs H :=
  repeat first
    [ apply elem_of_nil in H; destruct H
    | apply elem_of_cons in H as [H|H]; [try discriminate H|]
    | apply elem_of_app in H as [H|H] ].

Section RuleFacts.
Import Pil.
Context (inst : installation).

Lemma departure_rule i y dep y' :
  Line 8 y' 232 y' Departures.GRID_COLOR 1
    ∈ Departures.draw_departure inst i y dep
  ↔ y' = y + 45 ∧ i < 3.
Proof.
  unfold Departures.draw_departure. cbv zeta.
  unfold Departures.MAX_BUSES, Departures.row_height,
    Departures.IMAGE_WIDTH.
  destruct (Z.ltb_spec i (4 - 1)) as [Hi|Hi]; split.
  - intros H. split_cases H; in_eqs H; injection H as ->; lia.
  - intros [-> _]. rewrite !elem_of_app. do 5 right.
    apply list_elem_of_singleton. f_equal; lia.
  - intros H. split_cases H; in_eqs H.
  - lia.
Qed.

Lemma task_rule n i y task y' :
  Line 12 y' 228 y' Todoist.BORDER_COLOR 1
    ∈ Todoist.draw_task inst n i y task
  ↔ y' = y + 34 ∧ i < n - 1.
Proof.
  unfold Todoist.draw_task, Todoist.checkbox. cbv zeta.
  unfold Todoist.row_height.
  destruct (Z.ltb_spec i (n - 1)) as [Hi|Hi]; split.
  - intros H. split_cases H; in_eqs H; injection H as ->; lia.
  - intros [-> _]. rewrite !elem_of_app. do 4 right.
    apply list_elem_of_singleton. f_equal; lia.
  - intros H. split_cases H; in_eqs H.
  - lia.
Qed.

(** the texts of a task row start at column 38 *)
Lemma task_row_text n i y task x y' t c f :
  Text x y' t c f ∈ Todoist.draw_task inst n i y task → x = 38.
Proof.
  unfold Todoist.draw_task, Todoist.checkbox. cbv zeta. intros H.
  split_cases H; in_eqs H; injection H; intros; subst; reflexivity.
Qed.
End RuleFacts.

(** X13. On the departures board the rule under a row is drawn for the
    first three rows and never for the fourth, whether or not a row
    follows: a board of one row has a rule under that row. *)
Theorem departures_rule_below_row inst local departures path (k : nat) dep :
  departures !! k = Some dep → (k < 4)%nat →
  Pil.Line 8 (95 + 47 * Z.of_nat k) 232 (95 + 47 * Z.of_nat k)
    Departures.GRID_COLOR 1
    ∈ Pil.ops (Pil.saved_image
                 (Departures.create_display_image inst local departures
                    path))
  ↔ (k < 3)%nat.
Proof.
  intros Hk Hk4. split.
  - change (Pil.ops _)
      with (Departures.draw_header inst local
            ++ Departures.draw_departures inst 0 50 departures)%list.
    intros [H|H]%elem_of_app.
    + unfold Departures.draw_header in H. cbv zeta in H. in_eqs H.
    + destruct (draw_departures_inv inst _ _ _ _ H) as (k' & d & _ & _ & Ho).
      apply departure_rule in Ho. unfold Departures.row_height in Ho. lia.
  - intros Hk3. eapply departure_on_board; [exact Hk | exact Hk4 |].
    apply departure_rule. lia.
Qed.

(** X14. On the task board the rule under a row is drawn when a task
    follows it in the list, and not under the last task. *)
Theorem tasks_rule_below_row inst tasks path (k : nat) task :
  tasks !! k = Some task → (k < 6)%nat →
  Pil.Line 12 (92 + 36 * Z.of_nat k) 228 (92 + 36 * Z.of_nat k)
    Todoist.BORDER_COLOR 1
    ∈ Pil.ops (Pil.saved_image
                 (Todoist.create_display_image inst tasks path))
  ↔ (S k < length tasks)%nat.
Proof.
  intros Hk Hk6. split.
  - intros [H|[H|[_ H]]]%task_board_ops.
    + in_eqs H.
    + destruct (draw_tasks_inv inst _ _ _ _ _ H) as (k' & t & _ & _ & Ho).
      apply task_rule in Ho. unfold Todoist.row_height in Ho. lia.
    + discriminate H.
  - intros Hlt. eapply task_on_board; [exact Hk | exact Hk6 |].
    apply task_rule. lia.
Qed.

(** X15. The task board carries the message "All done for today!"
    exactly when it is given no row. *)
Theorem empty_message_iff inst tasks path :
  Pil.Text 50 110 Todoist.empty_message Todoist.ACCENT_COLOR
    (Todoist.task_font inst)
    ∈ Pil.ops (Pil.saved_image
                 (Todoist.create_display_image inst tasks path))
  ↔ tasks = [].
Proof.
  split.
  - intros [H|[H|[H _]]]%task_board_ops; [| |done].
    + in_eqs H.
    + destruct (draw_tasks_inv inst _ _ _ _ _ H) as (k & t & _ & _ & Ho).
      by apply task_row_text in Ho.
  - intros ->. unfold Todoist.create_display_image.
    cbn [Pil.saved_image Pil.ops]. rewrite !elem_of_app. right. right.
    by apply list_elem_of_singleton.
Qed.

(** ** What the uploader sends *)

Lemma has_slash_app a b :
  Shape.has_slash (a ++ b) = Shape.has_slash a || Shape.has_slash b.
Proof.
  induction a as [|c a IH]; [done|].
  change (Shape.has_slash (String c (a ++ b))
          = Shape.has_slash (String c a) || Shape.has_slash b).
  simpl. by rewrite IH, orb_assoc.
Qed.

Lemma basename_from_no_slash s : ∀ acc,
  Shape.has_slash acc = false →
  Shape.has_slash (Upload.basename_from acc s) = false.
Proof.
  induction s as [|c s IH]; intros acc Hacc; simpl; [done|].
  destruct (Ascii.eqb c "/") eqn:Hc; [by apply IH|].
  apply IH. rewrite has_slash_app, Hacc. simpl. by rewrite Hc.
Qed.

(** X16. One call of [upload_image] posts at most once, whatever the
    device answers; and what it posts is the content of the file it
    opened, in the field 'file', as image/jpeg, with a timeout of 10, to
    DEVICE_URL followed by '?dir=' and the upload directory, under the
    name of the file without any directory part. *)
Theorem upload_posts_once w image_path :
  let events := (Upload.upload_image w image_path).1 in
  (length (filter (λ e, Upload.is_post e = true) events) ≤ 1)%nat
  ∧ ∀ e, e ∈ events → Upload.is_post e = true →
      ∃ body,
        Upload.open_rb w image_path = Py.Ok body
        ∧ e = Upload.Post
                (Upload.shown (Upload.DEVICE_URL w) ++ "?dir="
                 ++ Upload.UPLOAD_DIR w)
                "file" (Upload.basename image_path) "image/jpeg" body 10
        ∧ Shape.has_slash (Upload.basename image_path) = false.
Proof.
  cbv zeta. unfold Upload.upload_image.
  destruct (Upload.exists_ w image_path); cbn [negb fst].
  2: { split; [rewrite filter_cons_False by done; simpl; lia|].
       intros e He Hp. in_list He. done. }
  destruct (Upload.open_rb w image_path) as [body|x]; cbn [fst].
  2: { split; [simpl; lia|]. intros e He. by apply elem_of_nil in He. }
  assert (Hshape : ∀ e tail,
            Forall (λ x, Upload.is_post x = false) tail →
            e ∈ Upload.Print ("Uploading " ++ image_path ++ " to "
                   ++ Upload.shown (Upload.DEVICE_URL w) ++ "...")
                :: Upload.Post
                     (Upload.shown (Upload.DEVICE_URL w) ++ "?dir="
                      ++ Upload.UPLOAD_DIR w)
                     "file" (Upload.basename image_path) "image/jpeg"
                     body 10
                :: tail →
            Upload.is_post e = true →
            ∃ body0,
              Py.Ok body = Py.Ok body0
              ∧ e = Upload.Post
                      (Upload.shown (Upload.DEVICE_URL w) ++ "?dir="
                       ++ Upload.UPLOAD_DIR w)
                      "file" (Upload.basename image_path) "image/jpeg"
                      body0 10
              ∧ Shape.has_slash (Upload.basename image_path) = false).
  { intros e tail Ht He Hp.
    apply elem_of_cons in He as [->|He]; [done|].
    apply elem_of_cons in He as [->|He].
    - exists body. split; [done|]. split; [done|].
      by apply basename_from_no_slash.
    - rewrite Forall_forall in Ht. rewrite (Ht e He) in Hp. done. }
  assert (Hcount : ∀ tail,
            Forall (λ x, Upload.is_post x = false) tail →
            (length (filter (λ e, Upload.is_post e = true)
               (Upload.Print ("Uploading " ++ image_path ++ " to "
                   ++ Upload.shown (Upload.DEVICE_URL w) ++ "...")
                :: Upload.Post
                     (Upload.shown (Upload.DEVICE_URL w) ++ "?dir="
                      ++ Upload.UPLOAD_DIR w)
                     "file" (Upload.basename image_path) "image/jpeg"
                     body 10
                :: tail)) ≤ 1)%nat).
  { intros tail Ht. rewrite filter_cons_False by done.
    rewrite filter_cons_True by done. simpl.
    assert (filter (λ e, Upload.is_post e = true) tail = []) as ->; [|done].
    induction Ht as [|x tail Hx _ IH]; [done|].
    rewrite filter_cons_False; [done | congruence]. }
  destruct (Upload.post w _ _ body) as [r|x]; cbn [fst app].
  - destruct (Upload.raise_for_status _ r); cbn [fst app].
    + split; [apply Hcount | intros e; apply Hshape]; by repeat constructor.
    + destruct (String.eqb (Upload.text r) "");
        (split; [apply Hcount | intros e; apply Hshape]);
        by repeat constructor.
  - split; [apply Hcount | intros e; apply Hshape]; by repeat constructor.
Qed.

(** X17. A path that exists but cannot be opened is not answered with
    False: the exception of [open] leaves [upload_image] as it is, before
    anything is printed or posted, and the process ends with status 1. *)
Theorem upload_unreadable_file w argv e :
  Upload.exists_ w (Upload.argv_path argv) = true →
  Upload.open_rb w (Upload.argv_path argv) = Py.Raise e →
  Upload.upload_image w (Upload.argv_path argv) = ([], Py.Raise e)
  ∧ Upload.main w argv = ([], 1).
Proof.
  intros He Ho.
  assert (Hu : Upload.upload_image w (Upload.argv_path argv)
               = ([], Py.Raise e)).
  { unfold Upload.upload_image. by rewrite He, Ho. }
  split; [done|]. unfold Upload.main. fold (Upload.argv_path argv).
  by rewrite Hu.
Qed.

(** ** The scripts as run *)

Section ScriptFacts.
Import Script.

Lemma saves_app a b : saves (a ++ b)%list = (saves a ++ saves b)%list.
Proof. apply omap_app. Qed.

Lemma gets_app a b : gets (a ++ b)%list = (gets a ++ gets b)%list.
Proof. apply filter_app. Qed.

Lemma departures_lines_quiet l :
  saves (DeparturesScript.row_line <$> l) = []
  ∧ gets (DeparturesScript.row_line <$> l) = [].
Proof. induction l as [|d l [IH1 IH2]]; [done|]. split; [exact IH1|exact IH2]. Qed.

Lemma index_label p :
  is_Some (index TodoistScript.priority_labels p) ↔ -5 ≤ p ≤ 4.
Proof.
  unfold index. change (Z.of_nat (length TodoistScript.priority_labels))
    with 5.
  destruct (Z.leb_spec 0 p), (Z.ltb_spec p 5), (Z.leb_spec (Z.opp 5) p),
    (Z.ltb_spec p 0); cbn [andb];
    rewrite ?lookup_lt_is_Some; cbn [length TodoistScript.priority_labels];
    try lia; (split; [by intros [? ?] | lia]).
Qed.

Lemma row_line_labelled r :
  is_Some (TodoistScript.row_line r) ↔ Geometry.labelled r.
Proof.
  unfold TodoistScript.row_line, Geometry.labelled.
  destruct (Todoist.completed r).
  - split; [by left | by eexists].
  - rewrite <- index_label.
    destruct (index TodoistScript.priority_labels (Todoist.priority r)).
    + split; [right; by eexists | by eexists].
    + split; [by intros [? ?] | by intros [?|[? ?]]].
Qed.

Lemma row_line_quiet r line :
  TodoistScript.row_line r = Some line → saves [line] = [] ∧ gets [line] = [].
Proof.
  unfold TodoistScript.row_line.
  destruct (Todoist.completed r); [by intros [= <-]|].
  destruct (index _ _); [by intros [= <-] | done].
Qed.

Lemma row_lines_quiet l :
  saves (TodoistScript.row_lines l).1 = []
  ∧ gets (TodoistScript.row_lines l).1 = [].
Proof.
  induction l as [|r l [IH1 IH2]]; [done|].
  cbn [TodoistScript.row_lines].
  destruct (TodoistScript.row_line r) as [line|] eqn:Hr; [|done].
  destruct (TodoistScript.row_lines l) as [lines e]. cbn [fst] in *.
  destruct (row_line_quiet _ _ Hr) as [Hs Hg].
  change (line :: lines) with ([line] ++ lines)%list.
  by rewrite saves_app, gets_app, Hs, Hg, IH1, IH2.
Qed.

Lemma row_lines_returned l :
  Forall Geometry.labelled l → (TodoistScript.row_lines l).2 = Returned.
Proof.
  induction 1 as [|r l Hr _ IH]; [done|]. simpl.
  apply row_line_labelled in Hr as [line ->].
  by destruct (TodoistScript.row_lines l).
Qed.

Lemma row_lines_uncaught l :
  Exists (λ r, ¬ Geometry.labelled r) l →
  (TodoistScript.row_lines l).2
  = Uncaught (IndexError "list index out of range").
Proof.
  induction 1 as [r l Hr|r l _ IH]; simpl.
  - destruct (TodoistScript.row_line r) as [line|] eqn:E; [|done].
    destruct Hr. apply row_line_labelled. by eexists.
  - destruct (TodoistScript.row_line r); [|done].
    by destruct (TodoistScript.row_lines l).
Qed.

Lemma fetch_today_tasks_quiet w :
  saves (TodoistScript.fetch_today_tasks w).1 = []
  ∧ length (gets (TodoistScript.fetch_today_tasks w).1) = 2%nat.
Proof.
  unfold TodoistScript.fetch_today_tasks. cbv zeta.
  by destruct (TodoistScript.get_active w _ _ _),
       (TodoistScript.get_completed w _ _ _).
Qed.
End ScriptFacts.

(** X18. The departures script sends one GET, and saves a file exactly
    when the answer is a payload from which [parse_departures] returns at
    least one row: the board of these rows, as departures.jpg.  Without
    an answer, or without rows, it returns having saved nothing; an
    exception of [parse_departures] ends it, nothing being saved. *)
Theorem departures_main_saves w :
  let run := DeparturesScript.main w in
  let data := (DeparturesScript.fetch_departures w).2 in
  length (Script.gets run.1) = 1%nat
  ∧ match data with
    | None => Script.saves run.1 = [] ∧ run.2 = Script.Returned
    | Some _ =>
        match Departures.parse_departures
                (DeparturesScript.utc_clock w) data with
        | Py.Ok [] => Script.saves run.1 = [] ∧ run.2 = Script.Returned
        | Py.Ok rows =>
            Script.saves run.1
            = [Departures.create_display_image
                 (DeparturesScript.machine w)
                 (DeparturesScript.local_clock w) rows "departures.jpg"]
            ∧ run.2 = Script.Returned
        | Py.Raise e =>
            Script.saves run.1 = []
            ∧ run.2 = Script.Uncaught (Script.Lib e)
        end
    end.
Proof.
  cbv zeta. unfold DeparturesScript.main.
  destruct (DeparturesScript.fetch_departures w) as [fetched data] eqn:Hf.
  assert (Hq : Script.saves fetched = []
               ∧ length (Script.gets fetched) = 1%nat).
  { unfold DeparturesScript.fetch_departures in Hf.
    destruct (DeparturesScript.get w _ _); by injection Hf as <- <-. }
  destruct Hq as [Hs Hg]. cbn [snd].
  destruct data as [p|]; cbn [fst snd].
  - destruct (Departures.parse_departures _ _) as [[|d l]|e]; cbn [fst snd].
    + change (Script.Print ?a :: fetched)
        with ([Script.Print a] ++ fetched)%list.
      rewrite !gets_app, !saves_app, !length_app, Hs, Hg. done.
    + change (Script.Print ?a :: fetched)
        with ([Script.Print a] ++ fetched)%list.
      rewrite !gets_app, !saves_app, !length_app, Hs, Hg.
      destruct (departures_lines_quiet (d :: l)) as [-> ->]. done.
    + change (Script.Print ?a :: fetched)
        with ([Script.Print a] ++ fetched)%list.
      rewrite !gets_app, !saves_app, !length_app, Hs, Hg. done.
  - change (Script.Print ?a :: fetched)
      with ([Script.Print a] ++ fetched)%list.
    rewrite !gets_app, !saves_app, !length_app, Hs, Hg. done.
Qed.

Lemma todoist_main_run w :
  let rows :=
    Todoist.parse_tasks (Some (TodoistScript.fetch_today_tasks w).2) in
  length (Script.gets (TodoistScript.main w).1) = 2%nat
  ∧ (TodoistScript.main w).2
    = match rows with
      | [] => Script.Returned
      | _ => (TodoistScript.row_lines rows).2
      end
  ∧ Script.saves (TodoistScript.main w).1
    = match rows, (TodoistScript.row_lines rows).2 with
      | _ :: _, Script.Uncaught _ => []
      | _, _ =>
          [Todoist.create_display_image (TodoistScript.machine w) rows
             "todoist_today.jpg"]
      end.
Proof.
  cbv zeta. unfold TodoistScript.main.
  destruct (fetch_today_tasks_quiet w) as [Hs Hg].
  destruct (TodoistScript.fetch_today_tasks w) as [fetched tasks].
  cbn [fst snd] in *.
  destruct (Todoist.parse_tasks (Some tasks)) as [|r rows] eqn:Hrows.
  - cbn [fst snd].
    change (Script.Print ?a :: fetched ++ ?b)%list
      with ([Script.Print a] ++ fetched ++ b)%list.
    rewrite !gets_app, !saves_app, !length_app, Hs, Hg. done.
  - destruct (row_lines_quiet (r :: rows)) as [Hls Hlg].
    destruct (TodoistScript.row_lines (r :: rows)) as [lines [|e]];
      cbn [fst snd] in *;
      change (Script.Print ?a :: fetched ++ ?b)%list
        with ([Script.Print a] ++ fetched ++ b)%list;
      rewrite !gets_app, !saves_app, !length_app, Hs, Hg, Hls, Hlg; done.
Qed.

(** X19. When every active row has a priority from -5 to 4, the task
    script returns, having sent its two GETs and saved one file: the
    board of the rows of [parse_tasks], as todoist_today.jpg. *)
Theorem todoist_main_returns w :
  let rows :=
    Todoist.parse_tasks (Some (TodoistScript.fetch_today_tasks w).2) in
  Forall Geometry.labelled rows →
  (TodoistScript.main w).2 = Script.Returned
  ∧ Script.saves (TodoistScript.main w).1
    = [Todoist.create_display_image (TodoistScript.machine w) rows
         "todoist_today.jpg"]
  ∧ length (Script.gets (TodoistScript.main w).1) = 2%nat.
Proof.
  cbv zeta. intros Hl. destruct (todoist_main_run w) as (Hg & Ho & Hs).
  rewrite Ho, Hs. clear Ho Hs.
  remember (Todoist.parse_tasks _) as rows eqn:E. clear E.
  destruct rows as [|r l]; [done|].
  by rewrite (row_lines_returned _ Hl).
Qed.

(** X20. An active row whose priority is above 4 or below -5 ends the
    task script with an [IndexError], raised while the rows are printed:
    no file is saved, although the renderer would have drawn the row. *)
Theorem todoist_main_index_error w :
  let rows :=
    Todoist.parse_tasks (Some (TodoistScript.fetch_today_tasks w).2) in
  Exists (λ r, ¬ Geometry.labelled r) rows →
  (TodoistScript.main w).2
  = Script.Uncaught (Script.IndexError "list index out of range")
  ∧ Script.saves (TodoistScript.main w).1 = [].
Proof.
  cbv zeta. intros He. destruct (todoist_main_run w) as (_ & Ho & Hs).
  rewrite Ho, Hs. clear Ho Hs.
  remember (Todoist.parse_tasks _) as rows eqn:E. clear E.
  destruct rows as [|r l]; [by apply Exists_nil in He|].
  by rewrite (row_lines_uncaught _ He).
Qed.

(** X21. Without a network the task script cannot tell: when both
    requests fail it still sends both, returns, and saves the board of
    no task, the one with the message "All done for today!". *)
Theorem todoist_main_offline w :
  (∀ url headers params,
      ∃ e, TodoistScript.get_active w url headers params = inr e) →
  (∀ url headers params,
      ∃ e, TodoistScript.get_completed w url headers params = inr e) →
  (TodoistScript.main w).2 = Script.Returned
  ∧ Script.saves (TodoistScript.main w).1
    = [Todoist.create_display_image (TodoistScript.machine w) []
         "todoist_today.jpg"]
  ∧ length (Script.gets (TodoistScript.main w).1) = 2%nat
  ∧ Pil.Text 50 110 Todoist.empty_message Todoist.ACCENT_COLOR
      (Todoist.task_font (TodoistScript.machine w))
    ∈ Pil.ops (Pil.saved_image
                 (Todoist.create_display_image (TodoistScript.machine w) []
                    "todoist_today.jpg")).
Proof.
  intros Ha Hc. destruct (todoist_main_run w) as (Hg & Ho & Hs).
  assert (Hrows : Todoist.parse_tasks
                    (Some (TodoistScript.fetch_today_tasks w).2) = []).
  { unfold TodoistScript.fetch_today_tasks. cbv zeta.
    destruct (Ha TodoistScript.API_URL
                [("Authorization", "Bearer " ++ TodoistScript.token w);
                 ("Content-Type", "application/json")]
                [("filter", "today")]) as [e1 ->].
    destruct (Hc TodoistScript.SYNC_URL
                [("Authorization", "Bearer " ++ TodoistScript.token w);
                 ("Content-Type", "application/json")]
                [("since",
                  TodoistScript.strftime_Ymd (TodoistScript.local_clock w)
                  ++ "T00:00")]) as [e2 ->].
    done. }
  rewrite Hrows in Ho, Hs. split; [done|]. split; [done|]. split; [done|].
  unfold Todoist.create_display_image. cbn [Pil.saved_image Pil.ops].
  rewrite !elem_of_app. right. right.
  by apply list_elem_of_singleton.
Qed.

(** ** The shape of a scheduled time text *)

Section ClockFacts.
Import DateTime.

Lemma digit_range c d : digit c = Some d → 0 ≤ d ≤ 9.
Proof.
  unfold digit. cbv zeta.
  destruct (N.leb_spec 48 (N_of_ascii c)) as [Hlo|?],
    (N.leb_spec (N_of_ascii c) 57) as [Hhi|?];
    cbn [andb]; intros [= <-].
  apply N2Z.inj_le in Hlo, Hhi.
  change (Z.of_N 48) with 48 in Hlo. change (Z.of_N 57) with 57 in Hhi.
  lia.
Qed.

Lemma digits_from_nonneg s : ∀ acc v,
  0 ≤ acc → digits_from acc s = Some v → 0 ≤ v.
Proof.
  induction s as [|c s IH]; simpl; intros acc v Hacc H.
  - injection H as <-. done.
  - destruct (digit c) as [d|] eqn:Hd; [|done].
    apply digit_range in Hd. apply (IH (acc * 10 + d) v); [lia | exact H].
Qed.

Lemma field_nonneg n s v rest : field n s = Some (v, rest) → 0 ≤ v.
Proof.
  unfold field, number.
  destruct (split_at n s) as [[a r]|]; [|done].
  destruct (_ =? _)%nat; [|done].
  destruct a; [done|].
  destruct (digits_from 0 _) as [x|] eqn:Hx; [|done].
  intros [= <- _]. by apply (digits_from_nonneg _ 0 x) in Hx.
Qed.

Lemma time_of_day_nonneg s h mi sec us tz :
  time_of_day s = Some (h, mi, sec, us, tz) → 0 ≤ h ∧ 0 ≤ mi.
Proof.
  unfold time_of_day. intros H.
  repeat match type of H with
         | context [match ?x with _ => _ end] =>
             destruct x eqn:?; try discriminate H
         end.
  all: injection H as <- <- <- <- <-.
  all: subst.
  all: repeat match goal with
         | F : field _ _ = Some _ |- _ => apply field_nonneg in F
         end.
  all: lia.
Qed.

Lemma parse_clock_range s d :
  parse s = Some d → 0 ≤ hour d ≤ 23 ∧ 0 ≤ minute d ≤ 59.
Proof.
  unfold parse.
  destruct (date_of s) as [[[[y m] dd] rest]|]; [|done].
  destruct rest as [|sep tstr].
  - destruct (in_range y m dd 0 0 0); [|done]. intros [= <-]. simpl. lia.
  - destruct (time_of_day tstr) as [[[[[h mi] sec] us] tz]|] eqn:Ht; [|done].
    destruct (in_range y m dd h mi sec) eqn:Hr; [|done].
    intros [= <-]. simpl. apply time_of_day_nonneg in Ht.
    unfold in_range in Hr. rewrite !andb_true_iff, !Z.leb_le in Hr. lia.
Qed.

Lemma pad2_two n :
  0 ≤ n ≤ 59 →
  ∃ a b, pad2 n = String a (String b "")
         ∧ is_Some (digit a) ∧ is_Some (digit b).
Proof.
  intros [H0 H1]. destruct n as [|p|p]; [| |lia].
  - eexists _, _. split; [reflexivity|]. split; by eexists.
  - do 6 (try destruct p as [p|p|]); try lia;
      (eexists _, _; split; [vm_compute; reflexivity|];
       split; by eexists).
Qed.

Lemma scheduled_info_text routes ct s r :
  Departures.departure_info routes ct s = Py.Ok (Some r) →
  Departures.is_live r = false →
  ∃ first d, parse first = Some d
             ∧ Departures.time_text r = strftime_HM d.
Proof.
  unfold Departures.departure_info. intros H Hlive.
  destruct (Departures.live_departures_seconds s) as [[|seconds ?]|].
  2: { injection H as <-. done. }
  all: destruct (Departures.next_departures s) as [[|first more]|];
    try done.
  all: unfold fromisoformat in H.
  all: destruct (parse first) as [d|] eqn:Hd; [|done]; cbn in H.
  all: destruct (Departures.clock_times (take 2 more)); [|done]; cbn in H.
  all: destruct (sub d ct); [|done]; cbn in H.
  all: injection H as <-; by exists first, d.
Qed.
End ClockFacts.

(** X22. The time text of a scheduled row is always five characters:
    two digits, a colon, two digits. *)
Theorem scheduled_time_text_shape clock data rows r :
  Departures.parse_departures clock data = Py.Ok rows →
  r ∈ rows → Departures.is_live r = false →
  ∃ h1 h2 m1 m2,
    Departures.time_text r
    = String h1 (String h2 (String ":" (String m1 (String m2 ""))))
    ∧ is_Some (DateTime.digit h1) ∧ is_Some (DateTime.digit h2)
    ∧ is_Some (DateTime.digit m1) ∧ is_Some (DateTime.digit m2).
Proof.
  intros Hp Hr Hlive.
  destruct (parse_departures_rows _ _ _ _ Hp Hr) as (_ & s & _ & Hi).
  destruct (scheduled_info_text _ _ _ _ Hi Hlive) as (first & d & Hd & ->).
  apply parse_clock_range in Hd as [Hh Hm].
  destruct (pad2_two (DateTime.hour d)) as (h1 & h2 & Eh & ? & ?); [lia|].
  destruct (pad2_two _ Hm) as (m1 & m2 & Em & ? & ?).
  exists h1, h2, m1, m2. unfold DateTime.strftime_HM. rewrite Eh, Em.
  by repeat split.
Qed.

(** ** The further properties at the sample inputs *)

Lemma parse_departures_keeps_soonest_witness :
  ∃ built dropped,
    Departures.collect (Valid.first_stop_routes Sample.payload)
      (DateTime.now_utc Sample.eight_o_clock)
      (Valid.first_stop_services Sample.payload)
    = Py.Ok built
    ∧ [Sample.live_row; Sample.scheduled_row] ++ dropped ≡ₚ built
    ∧ length [Sample.live_row; Sample.scheduled_row]
      = (4 `min` length built)%nat
    ∧ ∀ r d, r ∈ [Sample.live_row; Sample.scheduled_row] → d ∈ dropped →
        (Departures.sort_key r <= Departures.sort_key d)%Q.
Proof.
  apply (parse_departures_keeps_soonest Sample.eight_o_clock Sample.payload).
  vm_compute. reflexivity.
Defined.

Lemma parse_departures_row_count_witness :
  length [Sample.live_row; Sample.scheduled_row]
  = (4 `min` length (filter (λ s, Valid.has_departures s = true)
                       (Valid.first_stop_services Sample.payload)))%nat.
Proof.
  apply (parse_departures_row_count Sample.eight_o_clock Sample.payload).
  vm_compute. reflexivity.
Defined.

Lemma naive_timestamp_raises_witness :
  Departures.parse_departures Sample.eight_o_clock
    (Shape.with_services ([Sample.live] ++ Cases.naive :: [Sample.scheduled])
       (Some [Sample.route_175]) [])
  = Py.Raise
      (Py.TypeError "can't subtract offset-naive and offset-aware datetimes").
Proof.
  apply (naive_timestamp_raises Sample.eight_o_clock [Sample.live]
           Cases.naive [Sample.scheduled] (Some [Sample.route_175]) []
           "2024-01-01T08:15:00" []
           {| DateTime.year := 2024; DateTime.month := 1; DateTime.day := 1;
              DateTime.hour := 8; DateTime.minute := 15;
              DateTime.second := 0; DateTime.microsecond := 0;
              DateTime.tzinfo := None |});
    first [reflexivity | left; reflexivity].
Defined.


Lemma live_data_wins_witness :
  ∃ rows,
    Departures.parse_departures Sample.eight_o_clock
      (Shape.with_services [Cases.live_garbled; Sample.live] None [])
    = Py.Ok rows
    ∧ length rows = (4 `min` length [Cases.live_garbled; Sample.live])%nat
    ∧ ∀ r, r ∈ rows →
        Departures.is_live r = true
        ∧ Departures.additional_times r = None
        ∧ ∃ s seconds more,
            s ∈ [Cases.live_garbled; Sample.live]
            ∧ Departures.live_departures_seconds s = Some (seconds :: more)
            ∧ Departures.time_text r = Py.str (seconds / 60) ++ " min"
            ∧ Departures.sort_key r = inject_Z seconds.
Proof.
  apply (live_data_wins Sample.eight_o_clock
           [Cases.live_garbled; Sample.live] None []).
  repeat constructor; eexists _, _; reflexivity.
Defined.

Lemma departures_board_span_witness :
  0 ≤ Geometry.top (Pil.Rectangle 0 0 240 28 "#1a1a1a")
  ∧ Geometry.bottom (Pil.Rectangle 0 0 240 28 "#1a1a1a") ≤ 236
  ∧ (45 < Geometry.bottom (Pil.Rectangle 0 0 240 28 "#1a1a1a") →
     48 ≤ Geometry.top (Pil.Rectangle 0 0 240 28 "#1a1a1a")).
Proof.
  apply (departures_board_span Sample.monospace Sample.eight_o_clock
           [Sample.live_row] "departures.jpg").
  vm_compute. apply list_elem_of_here.
Defined.

Lemma tasks_board_span_witness :
  10 ≤ Geometry.top (Pil.Line 0 50 240 50 "#2a2a2a" 1)
  ∧ (Geometry.bottom (Pil.Line 0 50 240 50 "#2a2a2a" 1) ≤ 236
     ∨ (Todoist.IMAGE_HEIGHT ≤ Geometry.top (Pil.Line 0 50 240 50 "#2a2a2a" 1)
        ∧ ∃ task, [Sample.odd_task] !! 5%nat = Some task
                  ∧ Pil.Line 0 50 240 50 "#2a2a2a" 1
                    ∈ Todoist.draw_task Sample.monospace
                        (Z.of_nat (length [Sample.odd_task])) 5 238 task)).
Proof.
  apply (tasks_board_span Sample.monospace [Sample.odd_task]
           "todoist_today.jpg").
  vm_compute. do 2 apply list_elem_of_further. apply list_elem_of_here.
Defined.

Lemma sixth_task_below_canvas_witness :
  let tasks := replicate 6 Sample.odd_task in
  let board :=
    Pil.saved_image
      (Todoist.create_display_image Sample.monospace tasks
         "todoist_today.jpg") in
  Pil.Text 38 240 (Todoist.shown_content (Todoist.content Sample.odd_task))
    Todoist.TEXT_COLOR (Todoist.task_font Sample.monospace) ∈ Pil.ops board
  ∧ ∀ o, o ∈ Todoist.draw_task Sample.monospace (Z.of_nat (length tasks))
               5 238 Sample.odd_task →
         o ∈ Pil.ops board ∧ Todoist.IMAGE_HEIGHT ≤ Geometry.top o.
Proof.
  cbv zeta.
  apply (sixth_task_below_canvas Sample.monospace
           (replicate 6 Sample.odd_task) "todoist_today.jpg"
           Sample.odd_task).
  reflexivity.
Defined.

Lemma departures_rule_below_row_witness :
  Pil.Line 8 (95 + 47 * Z.of_nat 0) 232 (95 + 47 * Z.of_nat 0)
    Departures.GRID_COLOR 1
    ∈ Pil.ops (Pil.saved_image
                 (Departures.create_display_image Sample.monospace
                    Sample.eight_o_clock [Sample.live_row]
                    "departures.jpg")).
Proof.
  apply (departures_rule_below_row Sample.monospace Sample.eight_o_clock
           [Sample.live_row] "departures.jpg" 0 Sample.live_row);
    first [reflexivity | lia].
Defined.

Lemma tasks_rule_below_row_witness :
  ¬ Pil.Line 12 (92 + 36 * Z.of_nat 0) 228 (92 + 36 * Z.of_nat 0)
      Todoist.BORDER_COLOR 1
      ∈ Pil.ops (Pil.saved_image
                   (Todoist.create_display_image Sample.monospace
                      [Sample.odd_task] "todoist_today.jpg")).
Proof.
  intros H.
  apply (tasks_rule_below_row Sample.monospace [Sample.odd_task]
           "todoist_today.jpg" 0 Sample.odd_task) in H;
    first [reflexivity | simpl in H; lia | lia].
Defined.

Lemma empty_message_iff_witness :
  Pil.Text 50 110 Todoist.empty_message Todoist.ACCENT_COLOR
    (Todoist.task_font Sample.monospace)
    ∈ Pil.ops (Pil.saved_image
                 (Todoist.create_display_image Sample.monospace []
                    "todoist_today.jpg")).
Proof.
  apply (empty_message_iff Sample.monospace [] "todoist_today.jpg").
  reflexivity.
Defined.

Lemma upload_posts_once_witness :
  (length (filter (λ e, Upload.is_post e = true)
             (Upload.upload_image Sample.online "departures.jpg").1) ≤ 1)%nat.
Proof.
  apply (upload_posts_once Sample.online "departures.jpg").
Defined.

Lemma upload_unreadable_file_witness :
  Upload.upload_image Cases.locked (Upload.argv_path [])
  = ([], Py.Raise (Py.OSError "Permission denied"))
  ∧ Upload.main Cases.locked [] = ([], 1).
Proof.
  apply (upload_unreadable_file Cases.locked []
           (Py.OSError "Permission denied")); reflexivity.
Defined.

Lemma todoist_main_returns_witness :
  (TodoistScript.main Cases.busy).2 = Script.Returned
  ∧ Script.saves (TodoistScript.main Cases.busy).1
    = [Todoist.create_display_image Sample.monospace
         (Todoist.parse_tasks
            (Some (TodoistScript.fetch_today_tasks Cases.busy).2))
         "todoist_today.jpg"]
  ∧ length (Script.gets (TodoistScript.main Cases.busy).1) = 2%nat.
Proof.
  apply (todoist_main_returns Cases.busy).
  change (Forall Geometry.labelled
            [Todoist.active_row Cases.rent; Cases.done_low]).
  constructor; [right; simpl; lia|].
  constructor; [left; reflexivity|]. constructor.
Defined.

Lemma todoist_main_index_error_witness :
  (TodoistScript.main Cases.odd).2
  = Script.Uncaught (Script.IndexError "list index out of range")
  ∧ Script.saves (TodoistScript.main Cases.odd).1 = [].
Proof.
  apply (todoist_main_index_error Cases.odd).
  change (Exists (λ r, ¬ Geometry.labelled r)
            [Todoist.active_row Cases.overdue;
             Todoist.active_row Cases.rent]).
  apply Exists_cons_hd. unfold Geometry.labelled. simpl.
  intros [H|H]; [discriminate H | lia].
Defined.

Lemma todoist_main_offline_witness :
  (TodoistScript.main Cases.offline).2 = Script.Returned
  ∧ Script.saves (TodoistScript.main Cases.offline).1
    = [Todoist.create_display_image Sample.monospace []
         "todoist_today.jpg"]
  ∧ length (Script.gets (TodoistScript.main Cases.offline).1) = 2%nat
  ∧ Pil.Text 50 110 Todoist.empty_message Todoist.ACCENT_COLOR
      (Todoist.task_font Sample.monospace)
    ∈ Pil.ops (Pil.saved_image
                 (Todoist.create_display_image Sample.monospace []
                    "todoist_today.jpg")).
Proof.
  apply (todoist_main_offline Cases.offline);
    intros; eexists; reflexivity.
Defined.

Lemma scheduled_time_text_shape_witness :
  ∃ h1 h2 m1 m2,
    Departures.time_text Sample.scheduled_row
    = String h1 (String h2 (String ":" (String m1 (String m2 ""))))
    ∧ is_Some (DateTime.digit h1) ∧ is_Some (DateTime.digit h2)
    ∧ is_Some (DateTime.digit m1) ∧ is_Some (DateTime.digit m2).
Proof.
  apply (scheduled_time_text_shape Sample.eight_o_clock Sample.payload
           [Sample.live_row; Sample.scheduled_row] Sample.scheduled_row).
  - vm_compute. reflexivity.
  - apply list_elem_of_further, list_elem_of_here.
  - reflexivity.
Defined.
